(** * The Gemini service adapter of AUTO_SCAN_MAROC (src/services/geminiService.ts)

    A shallow embedding of the six adapter operations together with the
    ECMAScript built-ins they call: strings are sequences of UTF-16 code
    units, values are the values [JSON.parse] can build, exceptions are an
    explicit outcome, and the requests sent to the oracle are logged in a
    state that is threaded through every call. *)

From Stdlib Require Import List Arith NArith Bool String Ascii Lia.
Import ListNotations.
Set Warnings "-register-all".
Local Open Scope N_scope.
Local Open Scope list_scope.

(* ===================================================================== *)
(** ** Strings: UTF-16 code units *)
(* ===================================================================== *)

(** An ECMAScript string is a finite sequence of 16-bit code units. *)
Definition code_unit := N.
Definition jsstring := list code_unit.

Definition jsstring_eqb (a b : jsstring) : bool :=
  if list_eq_dec N.eq_dec a b then true else false.

(** Source literals are written as UTF-8 text; [lit] turns the bytes of such
    a literal into the code units the engine stores. *)
Fixpoint utf8_decode (bs : list N) : list N :=
  match bs with
  | [] => []
  | b :: r =>
      if b <? 0x80 then b :: utf8_decode r
      else if b <? 0xE0 then
        match r with
        | b1 :: r1 => ((b mod 32) * 64 + b1 mod 64) :: utf8_decode r1
        | _ => []
        end
      else if b <? 0xF0 then
        match r with
        | b1 :: b2 :: r2 =>
            ((b mod 16) * 4096 + (b1 mod 64) * 64 + b2 mod 64) :: utf8_decode r2
        | _ => []
        end
      else
        match r with
        | b1 :: b2 :: b3 :: r3 =>
            ((b mod 8) * 262144 + (b1 mod 64) * 4096 + (b2 mod 64) * 64 + b3 mod 64)
              :: utf8_decode r3
        | _ => []
        end
  end.

Definition utf16_encode (cp : N) : jsstring :=
  if cp <? 0x10000 then [cp]
  else [0xD800 + (cp - 0x10000) / 1024; 0xDC00 + (cp - 0x10000) mod 1024].

Definition is_high_surrogate (c : code_unit) : bool := (0xD800 <=? c) && (c <=? 0xDBFF).
Definition is_low_surrogate (c : code_unit) : bool := (0xDC00 <=? c) && (c <=? 0xDFFF).

(** Code points of a string: a high surrogate followed by a low one is one
    code point, every other code unit stands for itself. *)
Fixpoint utf16_decode (s : jsstring) : list N :=
  match s with
  | [] => []
  | c :: r =>
      match r with
      | d :: r' =>
          if is_high_surrogate c && is_low_surrogate d
          then (0x10000 + (c - 0xD800) * 1024 + (d - 0xDC00)) :: utf16_decode r'
          else c :: utf16_decode r
      | [] => [c]
      end
  end.

Definition lit (s : string) : jsstring :=
  flat_map utf16_encode (utf8_decode (map N_of_ascii (list_ascii_of_string s))).

(** The double quote, which a literal of this file cannot hold. *)
Definition dq : jsstring := [34].

(** *** Character classes *)

Definition is_digit (c : code_unit) : bool := (48 <=? c) && (c <=? 57).
Definition is_upper (c : code_unit) : bool := (65 <=? c) && (c <=? 90).
Definition is_lower (c : code_unit) : bool := (97 <=? c) && (c <=? 122).
Definition is_upper_alnum (c : code_unit) : bool := is_upper c || is_digit c.

(** WhiteSpace and LineTerminator of ECMA-262, the code units [trim] removes. *)
Definition is_white_space (c : code_unit) : bool :=
  (c =? 0x9) || (c =? 0xA) || (c =? 0xB) || (c =? 0xC) || (c =? 0xD) || (c =? 0x20)
  || (c =? 0xA0) || (c =? 0x1680) || ((0x2000 <=? c) && (c <=? 0x200A))
  || (c =? 0x2028) || (c =? 0x2029) || (c =? 0x202F) || (c =? 0x205F)
  || (c =? 0x3000) || (c =? 0xFEFF).

(** *** String.prototype.trim *)

Fixpoint trimStart (s : jsstring) : jsstring :=
  match s with
  | [] => []
  | c :: r => if is_white_space c then trimStart r else s
  end.

Fixpoint trimEnd (s : jsstring) : jsstring :=
  match s with
  | [] => []
  | c :: r =>
      match trimEnd r with
      | [] => if is_white_space c then [] else [c]
      | r' => c :: r'
      end
  end.

Definition trim (s : jsstring) : jsstring := trimEnd (trimStart s).

(** *** String.prototype.substring, called with two non-negative integers *)

Definition substring (s : jsstring) (start end_ : nat) : jsstring :=
  let len := List.length s in
  let finalStart := Nat.min start len in
  let finalEnd := Nat.min end_ len in
  let from := Nat.min finalStart finalEnd in
  let to := Nat.max finalStart finalEnd in
  firstn (to - from) (skipn from s).

(** *** String.prototype.split with a one-code-unit separator *)

Fixpoint split (sep : code_unit) (s : jsstring) : list jsstring :=
  match s with
  | [] => [[]]
  | c :: r =>
      if c =? sep then [] :: split sep r
      else match split sep r with
           | p :: ps => (c :: p) :: ps
           | [] => [[c]]
           end
  end.

(** *** String.prototype.toUpperCase

    ASCII letters are mapped here; the uppercase mapping of the other code
    points is the Unicode table of the engine, a parameter of the model. *)

Definition ascii_upper (c : code_unit) : code_unit :=
  if is_lower c then c - 32 else c.

Section UpperCase.
Variable upper_table : N -> list N.

Definition to_upper_cp (cp : N) : list N :=
  if cp <? 128 then [ascii_upper cp] else upper_table cp.

Definition toUpperCase (s : jsstring) : jsstring :=
  flat_map utf16_encode (flat_map to_upper_cp (utf16_decode s)).

(** Canonicalize of the regular-expression semantics, for a pattern with
    the [i] flag and without the [u] flag. *)
Definition Canonicalize (ch : code_unit) : code_unit :=
  match toUpperCase [ch] with
  | [cu] => if (128 <=? ch) && (cu <? 128) then ch else cu
  | _ => ch
  end.

(** The members of the class [A-Z0-9]. *)
Definition class_AZ09 : list code_unit :=
  map N.of_nat (seq 65 26) ++ map N.of_nat (seq 48 10).

(** Does the one-character pattern [[^A-Z0-9]] with flag [i] match [ch]? *)
Definition matches_not_AZ09_i (ch : code_unit) : bool :=
  negb (existsb (fun a => Canonicalize a =? Canonicalize ch) class_AZ09).

(** [s.replace(/[^A-Z0-9]/gi, '')]: every matching code unit is removed. *)
Definition replace_not_AZ09_gi (s : jsstring) : jsstring :=
  filter (fun ch => negb (matches_not_AZ09_i ch)) s.
End UpperCase.

(* ===================================================================== *)
(** ** The engine: numbers and the Unicode case table *)
(* ===================================================================== *)

(** The adapter never computes with numbers: it only receives them from
    [JSON.parse], tests them for truthiness and converts them to strings.
    The Number type of the engine (IEEE 754 doubles), its conversions and
    the Unicode uppercase table are what the engine provides. *)
Class Runtime : Type := {
  number : Type;
  (** the Number denoted by a JSON number literal *)
  StringToNumber : jsstring -> number;
  (** [true] on +0, -0 and NaN, the Numbers [ToBoolean] sends to [false] *)
  number_is_falsy : number -> bool;
  (** Number::toString with radix 10 *)
  Number_toString : number -> jsstring;
  (** full uppercase mapping of a code point above U+007F *)
  unicode_upper : N -> list N
}.

(* ===================================================================== *)
(** ** Exceptions *)
(* ===================================================================== *)

(** What a [throw] carries: an [Error] built by the adapter with its
    message, the TypeError and SyntaxError of the engine, or whatever the
    oracle's client rejects with. *)
Inductive exn : Type :=
| Error (message : jsstring)
| TypeError
| SyntaxError
| OracleFailure (reason : jsstring).

Inductive outcome (A : Type) : Type :=
| Return (a : A)
| Throw (e : exn).
Arguments Return {A} a.
Arguments Throw {A} e.

(* ===================================================================== *)
(** ** Values *)
(* ===================================================================== *)

Section Values.
Context {RT : Runtime}.

(** The values the adapter handles: [undefined] and what [JSON.parse]
    builds.  An object is the list of its own properties in creation
    order (the place integer-like keys take in an enumeration is not
    modelled: nothing here enumerates an object); an array is the list of
    its elements. *)
Inductive jsval : Type :=
| JUndefined
| JNull
| JBool (b : bool)
| JNum (n : number)
| JStr (s : jsstring)
| JArr (items : list jsval)
| JObj (props : list (jsstring * jsval)).

(** Own property lookup. *)
Fixpoint own_property (k : jsstring) (props : list (jsstring * jsval)) : option jsval :=
  match props with
  | [] => None
  | (k', v) :: r => if jsstring_eqb k k' then Some v else own_property k r
  end.

(** CreateDataProperty on an ordinary object: an existing key keeps its
    place and takes the new value, a new key goes last. *)
Fixpoint set_property (k : jsstring) (v : jsval) (props : list (jsstring * jsval))
  : list (jsstring * jsval) :=
  match props with
  | [] => [(k, v)]
  | (k', v') :: r =>
      if jsstring_eqb k k' then (k', v) :: r else (k', v') :: set_property k v r
  end.

Definition ToBoolean (v : jsval) : bool :=
  match v with
  | JUndefined | JNull => false
  | JBool b => b
  | JNum n => negb (number_is_falsy n)
  | JStr s => match s with [] => false | _ => true end
  | JArr _ | JObj _ => true
  end.

(** [a || b] *)
Definition or_else (a b : jsval) : jsval := if ToBoolean a then a else b.

(** [String(v)], that is ToString.  A parsed object converts through
    Object.prototype.toString unless an own property named toString (which
    cannot be callable) shadows it, and then the conversion throws; a
    parsed array converts through Array.prototype.join. *)
Fixpoint ToString (v : jsval) : outcome jsstring :=
  match v with
  | JUndefined => Return (lit "undefined")
  | JNull => Return (lit "null")
  | JBool true => Return (lit "true")
  | JBool false => Return (lit "false")
  | JNum n => Return (Number_toString n)
  | JStr s => Return s
  | JObj props =>
      match own_property (lit "toString") props with
      | Some _ => Throw TypeError
      | None => Return (lit "[object Object]")
      end
  | JArr items =>
      (fix join (l : list jsval) : outcome jsstring :=
         match l with
         | [] => Return []
         | x :: r =>
             match (match x with
                    | JUndefined | JNull => Return []
                    | _ => ToString x
                    end) with
             | Throw e => Throw e
             | Return sx =>
                 match r with
                 | [] => Return sx
                 | _ => match join r with
                        | Throw e => Throw e
                        | Return sr => Return (sx ++ lit "," ++ sr)
                        end
                 end
             end
         end) items
  end.

(** [o.k] for a name [k] that no built-in prototype defines (as is the
    case of every name the adapter reads). *)
Definition Get (o : jsval) (k : jsstring) : outcome jsval :=
  match o with
  | JUndefined | JNull => Throw TypeError
  | JObj props =>
      Return (match own_property k props with Some v => v | None => JUndefined end)
  | _ => Return JUndefined
  end.

End Values.

(* ===================================================================== *)
(** ** JSON.parse *)
(* ===================================================================== *)

(** [JSON.parse] (called without a reviver) as a pushdown recogniser of the
    JSON grammar of ECMA-404 that reads the text one code unit at a time and
    builds the value: the stack holds the arrays and objects still open. *)
Module JSON.
Section Parse.
Context {RT : Runtime}.

(** The four white space characters of JSON. *)
Definition is_ws (c : code_unit) : bool :=
  (c =? 0x9) || (c =? 0xA) || (c =? 0xD) || (c =? 0x20).

Inductive frame : Type :=
| FArr (items : list jsval)
    (* an open array and its elements so far, last first *)
| FObj (props : list (jsstring * jsval)) (key : option jsstring).
    (* an open object, its properties so far and the key whose value is awaited *)

(** Where the recogniser stands inside a number literal: an optional
    minus sign, an integer part without leading zero, an optional fraction
    and an optional exponent. *)
Inductive numstate : Type :=
| NMinus | NZero | NInt | NDot | NFrac | NE | NESign | NExp.

Definition num_accepting (n : numstate) : bool :=
  match n with
  | NZero | NInt | NFrac | NExp => true
  | _ => false
  end.

Definition is_e (c : code_unit) : bool := (c =? 101) || (c =? 69).

Definition num_next (n : numstate) (c : code_unit) : option numstate :=
  match n with
  | NMinus => if c =? 48 then Some NZero else if is_digit c then Some NInt else None
  | NZero => if c =? 46 then Some NDot else if is_e c then Some NE else None
  | NInt => if is_digit c then Some NInt
            else if c =? 46 then Some NDot else if is_e c then Some NE else None
  | NDot => if is_digit c then Some NFrac else None
  | NFrac => if is_digit c then Some NFrac else if is_e c then Some NE else None
  | NE => if is_digit c then Some NExp
          else if (c =? 43) || (c =? 45) then Some NESign else None
  | NESign => if is_digit c then Some NExp else None
  | NExp => if is_digit c then Some NExp else None
  end.

Inductive mode : Type :=
| Value                       (* a value must start *)
| ArrFirst                    (* after [[]: a value or []] *)
| ObjFirst                    (* after [{]: a key or [}] *)
| ObjKey                      (* after [,] in an object: a key *)
| Colon                       (* after a key *)
| AfterValue                  (* after a value inside an array or object *)
| Done (v : jsval)            (* after the top-level value *)
| InString (is_key : bool) (acc : jsstring)
| InEscape (is_key : bool) (acc : jsstring)
| InUnicode (is_key : bool) (acc : jsstring) (seen : nat) (code : N)
| InNumber (n : numstate) (acc : jsstring)
| InLiteral (rest : jsstring) (v : jsval).

Definition state : Type := mode * list frame.

Definition init : state := (Value, []).

(** A value is complete: it is the result, the next element of the open
    array, or the value of the awaited key of the open object. *)
Definition deliver (v : jsval) (st : list frame) : option state :=
  match st with
  | [] => Some (Done v, [])
  | FArr items :: st' => Some (AfterValue, FArr (v :: items) :: st')
  | FObj props (Some k) :: st' => Some (AfterValue, FObj (set_property k v props) None :: st')
  | FObj _ None :: _ => None
  end.

Definition hex_value (c : code_unit) : option N :=
  if is_digit c then Some (c - 48)
  else if (97 <=? c) && (c <=? 102) then Some (c - 87)
  else if (65 <=? c) && (c <=? 70) then Some (c - 55)
  else None.

(** The character of a two-character escape. *)
Definition escape_value (c : code_unit) : option code_unit :=
  if (c =? 34) || (c =? 92) || (c =? 47) then Some c
  else if c =? 98 then Some 8
  else if c =? 102 then Some 12
  else if c =? 110 then Some 10
  else if c =? 114 then Some 13
  else if c =? 116 then Some 9
  else None.

(** The start of a value. *)
Definition start_value (c : code_unit) (st : list frame) : option state :=
  if c =? 34 then Some (InString false [], st)
  else if c =? 123 then Some (ObjFirst, FObj [] None :: st)
  else if c =? 91 then Some (ArrFirst, FArr [] :: st)
  else if c =? 45 then Some (InNumber NMinus [c], st)
  else if c =? 48 then Some (InNumber NZero [c], st)
  else if is_digit c then Some (InNumber NInt [c], st)
  else if c =? 116 then Some (InLiteral (lit "rue") (JBool true), st)
  else if c =? 102 then Some (InLiteral (lit "alse") (JBool false), st)
  else if c =? 110 then Some (InLiteral (lit "ull") JNull, st)
  else None.

Definition close_array (st : list frame) : option state :=
  match st with
  | FArr items :: st' => deliver (JArr (rev items)) st'
  | _ => None
  end.

Definition close_object (st : list frame) : option state :=
  match st with
  | FObj props None :: st' => deliver (JObj props) st'
  | _ => None
  end.

(** What may follow a complete value. *)
Definition step_after (m : mode) (st : list frame) (c : code_unit) : option state :=
  match m with
  | Done v => if is_ws c then Some (Done v, st) else None
  | AfterValue =>
      if is_ws c then Some (AfterValue, st)
      else if c =? 44 then
        match st with
        | FArr _ :: _ => Some (Value, st)
        | FObj _ None :: _ => Some (ObjKey, st)
        | _ => None
        end
      else if c =? 93 then close_array st
      else if c =? 125 then close_object st
      else None
  | _ => None
  end.

Definition end_string (is_key : bool) (s : jsstring) (st : list frame) : option state :=
  if is_key then
    match st with
    | FObj props None :: st' => Some (Colon, FObj props (Some s) :: st')
    | _ => None
    end
  else deliver (JStr s) st.

Definition step (s : state) (c : code_unit) : option state :=
  let (m, st) := s in
  match m with
  | Value => if is_ws c then Some (Value, st) else start_value c st
  | ArrFirst =>
      if is_ws c then Some (ArrFirst, st)
      else if c =? 93 then close_array st
      else start_value c st
  | ObjFirst =>
      if is_ws c then Some (ObjFirst, st)
      else if c =? 125 then close_object st
      else if c =? 34 then Some (InString true [], st)
      else None
  | ObjKey =>
      if is_ws c then Some (ObjKey, st)
      else if c =? 34 then Some (InString true [], st)
      else None
  | Colon =>
      if is_ws c then Some (Colon, st)
      else if c =? 58 then Some (Value, st)
      else None
  | AfterValue | Done _ => step_after m st c
  | InString k acc =>
      if c =? 34 then end_string k (rev acc) st
      else if c =? 92 then Some (InEscape k acc, st)
      else if c <? 0x20 then None
      else Some (InString k (c :: acc), st)
  | InEscape k acc =>
      if c =? 117 then Some (InUnicode k acc 0 0, st)
      else match escape_value c with
           | Some e => Some (InString k (e :: acc), st)
           | None => None
           end
  | InUnicode k acc seen code =>
      match hex_value c with
      | Some d =>
          match seen with
          | 3%nat => Some (InString k ((code * 16 + d) :: acc), st)
          | _ => Some (InUnicode k acc (S seen) (code * 16 + d), st)
          end
      | None => None
      end
  | InNumber n acc =>
      match num_next n c with
      | Some n' => Some (InNumber n' (c :: acc), st)
      | None =>
          if num_accepting n then
            match deliver (JNum (StringToNumber (rev acc))) st with
            | Some (m', st') => step_after m' st' c
            | None => None
            end
          else None
      end
  | InLiteral rest v =>
      match rest with
      | x :: rest' =>
          if c =? x then
            match rest' with
            | [] => deliver v st
            | _ => Some (InLiteral rest' v, st)
            end
          else None
      | [] => None
      end
  end.

Fixpoint run (s : state) (text : jsstring) : option state :=
  match text with
  | [] => Some s
  | c :: r =>
      match step s c with
      | Some s' => run s' r
      | None => None
      end
  end.

(** The end of the text. *)
Definition finish (s : state) : option jsval :=
  match s with
  | (Done v, []) => Some v
  | (InNumber n acc, []) =>
      if num_accepting n then Some (JNum (StringToNumber (rev acc))) else None
  | _ => None
  end.

Definition parse (text : jsstring) : outcome jsval :=
  match run init text with
  | Some s =>
      match finish s with
      | Some v => Return v
      | None => Throw SyntaxError
      end
  | None => Throw SyntaxError
  end.

End Parse.
End JSON.

(** A runtime in which a number is kept as the literal that denotes it, and
    whose case table knows the Latin-1 letters; it runs the model on
    concrete inputs. *)
Fixpoint literal_mantissa (l : jsstring) : jsstring :=
  match l with
  | [] => []
  | c :: r => if JSON.is_e c then [] else c :: literal_mantissa r
  end.

Definition literal_is_zero (l : jsstring) : bool :=
  forallb (fun c => negb ((49 <=? c) && (c <=? 57))) (literal_mantissa l).

Definition latin1_upper (cp : N) : list N :=
  if cp =? 0xDF then [83; 83]
  else if cp =? 0xB5 then [0x39C]
  else if cp =? 0xFF then [0x178]
  else if (0xE0 <=? cp) && (cp <=? 0xFE) && negb (cp =? 0xF7) then [cp - 32]
  else [cp].

Definition LiteralRuntime : Runtime := {|
  number := jsstring;
  StringToNumber := fun l => l;
  number_is_falsy := literal_is_zero;
  Number_toString := fun l => l;
  unicode_upper := latin1_upper
|}.

(* ===================================================================== *)
(** ** The oracle and the adapter's effects *)
(* ===================================================================== *)

(** The [Type] tags of @google/genai the schemas use. *)
Inductive SchemaType : Type := STRING | INTEGER.

Record property_schema : Type := {
  type : SchemaType;
  enum : option (list jsstring);
  description : option jsstring
}.

(** A [responseSchema] of type [Type.OBJECT]. *)
Record object_schema : Type := {
  properties : list (jsstring * property_schema);
  required : list jsstring
}.

Inductive part : Type :=
| inlineData (mimeType data : jsstring)
| text_part (text : jsstring).

Inductive contents_t : Type :=
| contents_string (s : jsstring)
| contents_parts (parts : list part).

Record config_t : Type := {
  systemInstruction : jsstring;
  responseMimeType : option jsstring;
  responseSchema : option object_schema
}.

(** One turn of a conversation ([Content] of @google/genai). *)
Record Content : Type := {
  role : jsstring;
  parts : list part
}.

(** What the adapter sends: [ai.models.generateContent] with its
    parameters, or [sendMessage] on a chat created with a model, a
    configuration and a history. *)
Inductive request : Type :=
| generateContent_request (model : jsstring) (contents : contents_t) (config : config_t)
| sendMessage_request (model : jsstring) (config : config_t) (history : list Content)
    (message : jsstring).

(** The reply: its [text] is a string or [undefined]. *)
Record response : Type := { text : option jsstring }.

(** The world of a call: the process configuration and the oracle, which
    answers a request with a reply or rejects it. *)
Record world : Type := {
  API_KEY : option jsstring;
  oracle : request -> outcome response
}.

(** The client [new GoogleGenAI({ apiKey })]. *)
Record GoogleGenAI : Type := { apiKey : jsstring }.

(** A computation of the adapter reads the world, appends the requests it
    sends to the log, and returns or throws. *)
Definition M (A : Type) : Type := world -> list request -> outcome A * list request.

Definition ret {A : Type} (a : A) : M A := fun _ log => (Return a, log).
Definition throw {A : Type} (e : exn) : M A := fun _ log => (Throw e, log).
Definition lift {A : Type} (o : outcome A) : M A := fun _ log => (o, log).
Definition bind {A B : Type} (m : M A) (k : A -> M B) : M B :=
  fun w log =>
    match m w log with
    | (Return a, log') => k a w log'
    | (Throw e, log') => (Throw e, log')
    end.

Declare Scope adapter_scope.
Delimit Scope adapter_scope with adapter.
Notation "x <- m ;; k" := (bind m (fun x => k))
  (at level 61, m at next level, right associativity) : adapter_scope.
Local Open Scope adapter_scope.

(** The same sequencing for the pure conversions that may throw. *)
Definition outcome_bind {A B : Type} (o : outcome A) (k : A -> outcome B) : outcome B :=
  match o with
  | Return a => k a
  | Throw e => Throw e
  end.
Notation "x <-! o ;; k" := (outcome_bind o (fun x => k))
  (at level 61, o at next level, right associativity) : adapter_scope.

(** [ai.models.generateContent(params)] and [chat.sendMessage]: the request
    goes out, and the oracle's answer comes back. *)
Definition send (ai : GoogleGenAI) (r : request) : M response :=
  fun w log => (oracle w r, log ++ [r]).

Definition generateContent (ai : GoogleGenAI) (model : jsstring) (contents : contents_t)
    (config : config_t) : M response :=
  send ai (generateContent_request model contents config).

Definition sendMessage (ai : GoogleGenAI) (model : jsstring) (config : config_t)
    (history : list Content) (message : jsstring) : M response :=
  send ai (sendMessage_request model config history message).

(** [a || b] for [a] a string or [undefined]. *)
Definition string_or (a : option jsstring) (b : jsstring) : jsstring :=
  match a with
  | Some (c :: r) => c :: r
  | _ => b
  end.

(** A string or [undefined] inside a template literal. *)
Definition interpolate (a : option jsstring) : jsstring :=
  match a with
  | Some s => s
  | None => lit "undefined"
  end.

Definition nl : jsstring := [10].

(** The lines of a template literal, joined by line feeds. *)
Fixpoint unlines (ls : list jsstring) : jsstring :=
  match ls with
  | [] => []
  | l :: r =>
      match r with
      | [] => l
      | _ => l ++ nl ++ unlines r
      end
  end.

(** Modelled from the spec: the declaration of [ScanType] (in ../types) is
    missing; it is "an enumerated tag selecting which prompt variant to
    use", a string at run time, whose default in the code is ['vin']. *)
Definition ScanType : Type := jsstring.

(** Modelled from the spec: the declaration of [VehicleAnalysis] (in
    ../types) is missing; these are the fields of the spec's data model that
    [estimateMarketValue] reads, each a string or [undefined]. *)
Record VehicleAnalysis : Type := {
  va_brand : option jsstring;
  va_model : option jsstring;
  va_yearOfManufacture : option jsstring;
  va_registrationYear : option jsstring;
  va_motorization : option jsstring;
  va_fuelType : option jsstring;
  va_inventoryNotes : option jsstring
}.

(* ===================================================================== *)
(** ** The instruction texts *)
(* ===================================================================== *)

Definition analyzeVehicleByVin_systemPrompt (vin : jsstring) : jsstring :=
  unlines [
    lit "Tu es KHABIR, expert automobile certifié au Maroc. ";
    lit "       À partir de ce numéro VIN : " ++ vin ++ lit ", effectue un décodage ISO 3779 rigoureux.";
    lit "       ";
    lit "       RÈGLES D'IDENTIFICATION :";
    lit "       1. Examine le VDS (caractères 4 à 9). Pour le groupe VAG (Audi, VW, Seat), les positions 7 et 8 sont critiques pour le code modèle (ex: 8X=A1, F5=A5, 5F=Leon, 51=Ateca).";
    lit "       2. Ne confonds pas les segments. Si les positions 7-8 indiquent '5F', le modèle est 'LEON', pas 'ATECA'.";
    lit "       3. Croise avec le marché MAROCAIN (importateurs officiels comme CAC, Sopriam, Renault Commerce Maroc).";
    lit "       ";
    lit "       CHAMPS REQUIS :";
    lit "       - brand : Constructeur.";
    lit "       - model : Modèle commercial exact au Maroc.";
    lit "       - deductionReasoning : Explique précisément quel code VDS (positions 4-9) ou VIS a permis d'identifier le modèle (ex: " ++ dq ++ lit "Identifié comme Audi A1 grâce au code VDS '8X' en positions 7-8" ++ dq ++ lit ").";
    lit "       - yearOfManufacture : Année code (Position 10).";
    lit "       - motorization : Motorisation standard au Maroc.";
    lit "       - fuelType : [" ++ dq ++ lit "Essence" ++ dq ++ lit ", " ++ dq ++ lit "Diesel" ++ dq ++ lit ", " ++ dq ++ lit "Hybride" ++ dq ++ lit ", " ++ dq ++ lit "Électrique" ++ dq ++ lit ", " ++ dq ++ lit "N/A" ++ dq ++ lit "].";
    lit "       - color : Couleur probable.";
    lit "       ";
    lit "       Réponds uniquement en JSON pur."
  ].

Definition analyzeVehicleByVin_contents (vin : jsstring) : jsstring :=
  lit "Décoder précisément le VIN : " ++ vin ++ lit " selon ISO 3779. JSON.".

Definition analyzeVehicleCritical_systemPrompt : jsstring :=
  unlines [
    lit "Tu es KHABIR, expert extraction documentaire automobile au Maroc.";
    lit "       Ta mission est d'extraire le VIN (Numéro de Châssis) de l'image.";
    lit "       ";
    lit "       RÈGLES CRITIQUES (ISO 3779 & NM ISO 3779 Maroc) :";
    lit "       1. VIN = 17 caractères alphanumériques (0-9, A-Z sauf I, O, Q pour éviter confusion).";
    lit "       2. Isole la zone du VIN (pare-brise, portière, carte grise) et OCR le texte.";
    lit "       3. CORRIGE les erreurs d'OCR courantes :";
    lit "          - 'I' -> '1'";
    lit "          - 'O' -> '0'";
    lit "          - 'Q' -> '0'";
    lit "          - 'B' -> '8'";
    lit "          - 'S' -> '5'";
    lit "          - 'Z' -> '2'";
    lit "       ";
    lit "       ANALYSE DU VÉHICULE (DÉDUCTION) :";
    lit "       - Utilise le WMI (3 premiers chars) pour la Marque/Pays.";
    lit "       - Utilise le VDS (chars 4-9) pour le Modèle/Moteur.";
    lit "       - Utilise le caractère 10 pour l'Année Modèle (Code Année).";
    lit "       ";
    lit "       EXTRAIRE :";
    lit "       - brand : Nom du constructeur (Uppercased).";
    lit "       - model : Modèle déduit du VDS.";
    lit "       - vin : Le VIN corrigé de 17 caractères.";
    lit "       - deductionReasoning : " ++ dq ++ lit "Identifié [Marque] [Modèle] grâce au code WMI [XXX] et VDS [XXXX]." ++ dq;
    lit "       - yearOfManufacture : Année déduite du 10ème caractère.";
    lit "       - licensePlate : Immatriculation (si visible).";
    lit "       - registrationYear : Année 1ère mise en circulation (si visible carte grise).";
    lit "       ";
    lit "       Réponds uniquement en JSON pur.";
    lit "       FORMAT DATES : Années de 4 chiffres (YYYY)."
  ].

Definition analyzeVehicleCritical_text (mode : ScanType) : jsstring :=
  lit "Analyse critique ISO 3779 image de " ++ mode ++ lit ". JSON.".

Definition analyzeVehicleDetails_systemPrompt (brand : jsstring) : jsstring :=
  unlines [
    lit "Expert automobile spécialiste du marché MAROCAIN (KABIR).";
    lit "       À partir de cette image et sachant que la marque est " ++ brand ++ lit ", affine l'analyse.";
    lit "       ";
    lit "       CONTEXTE MARCHÉ MAROC (Réglementation NM ISO 3779):";
    lit "       - Le VIN doit être conforme.";
    lit "       - Les motorisations sont souvent spécifiques (ex: 1.5 dCi, 2.0 TDI, 2.2 CDI).";
    lit "       - IMPORTATEURS OFFICIELS :";
    lit "         * Audi/VW/Skoda/Porsche/Bentley -> CAC (Centrale Automobile Chérifienne)";
    lit "         * Peugeot/Citroën/DS -> SOPRIAM";
    lit "         * Renault/Dacia -> RENAULT COMMERCE MAROC";
    lit "         * Toyota -> TOYOTA DU MAROC";
    lit "         * Fiat/Jeep/Alfa -> STELLANTIS MAROC";
    lit "         * BMW/Mini -> SMEIA";
    lit "         * Mercedes -> AUTO NEJMA";
    lit "         * Hyundai -> GLOBAL ENGINES";
    lit "         * Kia -> KIA MAROC";
    lit "       ";
    lit "       CHAMPS À AFFINER :";
    lit "       - model : Version/finition exacte si identifiable (ex: " ++ dq ++ lit "Golf 8 R-Line" ++ dq ++ lit ").";
    lit "       - motorization : DÉDUCTION LOGIQUE via VIN et Visuel (ex: sigle 'TDI', échappement).";
    lit "       - fuelType : [" ++ dq ++ lit "Essence" ++ dq ++ lit ", " ++ dq ++ lit "Diesel" ++ dq ++ lit ", " ++ dq ++ lit "Hybride" ++ dq ++ lit ", " ++ dq ++ lit "Électrique" ++ dq ++ lit ", " ++ dq ++ lit "N/A" ++ dq ++ lit "].";
    lit "       - color : Nom commercial approximatif (ex: " ++ dq ++ lit "Gris Nardo" ++ dq ++ lit ", " ++ dq ++ lit "Blanc Nacré" ++ dq ++ lit ").";
    lit "       - registrationYear : Année 1ère mise en circulation.";
    lit "       - deductionReasoning : EXPLIQUE COMMENT le modèle et le moteur sont déduits (Code Moteur dans le VIN ? Logo ?).";
    lit "       ";
    lit "       Réponds uniquement en JSON pur."
  ].

Definition analyzeVehicleDetails_text (brand : jsstring) : jsstring :=
  lit "Analyse détaillée pour " ++ brand ++ lit ". JSON.".

Definition getVinAnalysisReport_systemPrompt (vin : jsstring) : jsstring :=
  unlines [
    lit "Tu es KHABIR, expert automobile officiel au Maroc.";
    lit "       Rédige un rapport d'expertise technique pour le VIN : " ++ vin ++ lit ".";
    lit "       Le rapport doit rassurer l'acheteur et prouver la conformité.";
    lit "       ";
    lit "       STRUCTURE DU RAPPORT (Format Markdown) :";
    lit "       ";
    lit "       ### 1. 🚘 Identité & Conformité";
    lit "       - **Marque/Modèle** : [Nom]";
    lit "       - **Origine** : [Pays détecté via WMI]";
    lit "       - **Importateur Maroc** : (Citer l'importateur officiel: CAC pour VAG, Sopriam pour PSA, Auto Nejma pour Mercedes, Smeia pour BMW, etc.)";
    lit "       ";
    lit "       ### 2. ⚙️ Analyse Technique (Déduction VIN)";
    lit "       - **Moteur** : [Déduction via VDS]";
    lit "       - **Année Modèle** : [Déduction via 10ème caractère]";
    lit "       - *Note : Cette analyse respecte la norme NM ISO 3779 en vigueur au Maroc.*";
    lit "       ";
    lit "       ### 3. 🔍 Décodage Détaillé";
    lit "       | Section | Code | Signification |";
    lit "       | :--- | :--- | :--- |";
    lit "       | **WMI** | " ++ (substring vin 0 3) ++ lit " | Constructeur / Pays |";
    lit "       | **VDS** | " ++ (substring vin 3 9) ++ lit " | Caractéristiques (Châssis, Moteur) |";
    lit "       | **VIS** | " ++ (substring vin 9 17) ++ lit " | Identification Unique / Usine |";
    lit "       ";
    lit "       ### 4. ⚠️ Points de Vigilance (Spécifique Modèle)";
    lit "       - Lister 2-3 points à surveiller sur ce modèle précis (ex: distribution, boîte auto, etc.).";
    lit "       ";
    lit "       Ton expert et professionnel. Pas de bla-bla générique."
  ].

Definition getVinAnalysisReport_contents (vin : jsstring) : jsstring :=
  lit "Génère le rapport d'expertise pour le VIN : " ++ vin ++ lit ".".

Definition chatWithExpert_systemInstruction : jsstring :=
  unlines [
    lit "Tu es KHABIR, un expert automobile marocain très expérimenté et serviable. ";
    lit "            Réponds aux questions techniques sur les véhicules, les pannes, les procédures d'entretien, et le marché marocain. ";
    lit "            Sois précis, concis et utilise un langage accessible."
  ].

Definition estimateMarketValue_systemPrompt (vehicle : VehicleAnalysis) : jsstring :=
  unlines [
    lit "Tu es un expert en évaluation de véhicules d'occasion au MAROC.";
    lit "  Analyse les détails suivants et fournis une estimation de la valeur marchande en Dirhams Marocains (MAD).";
    [];
    lit "  DÉTAILS DU VÉHICULE :";
    lit "  - Marque: " ++ (interpolate (va_brand vehicle));
    lit "  - Modèle: " ++ (interpolate (va_model vehicle));
    lit "  - Année de fabrication: " ++ (interpolate (va_yearOfManufacture vehicle));
    lit "  - Année de 1ère immatriculation: " ++ (string_or (va_registrationYear vehicle) (lit "N/A"));
    lit "  - Motorisation: " ++ (interpolate (va_motorization vehicle));
    lit "  - Carburant: " ++ (interpolate (va_fuelType vehicle));
    lit "  - Notes sur l'état: " ++ (string_or (va_inventoryNotes vehicle) (lit "Pas de notes spécifiques sur l'état."));
    [];
    lit "  TA MISSION :";
    lit "  1.  **Estimer une fourchette de prix réaliste** (min et max) pour une vente entre particuliers au Maroc.";
    lit "  2.  **Fournir une justification claire** expliquant les facteurs pris en compte (popularité du modèle, motorisation, décote, état général supposé basé sur les notes).";
    [];
    lit "  Réponds uniquement en JSON pur. Ne rajoute aucun commentaire en dehors du JSON."
  ].

(* ===================================================================== *)
(** ** The six operations *)
(* ===================================================================== *)

Definition string_property : property_schema :=
  {| type := STRING; enum := None; description := None |}.

Definition fuelType_property : property_schema :=
  {| type := STRING;
     enum := Some [lit "Essence"; lit "Diesel"; lit "Hybride"; lit "Électrique"; lit "N/A"];
     description := None |}.

Definition getAIClient : M GoogleGenAI :=
  fun w log =>
    match API_KEY w with
    | Some (c :: k) => (Return {| apiKey := c :: k |}, log)
    | _ => (Throw (Error (lit "Clé API Google Gemini manquante")), log)
    end.

(** The payload of an image: [base64Image.split(',')[1] || base64Image]. *)
Definition image_data (base64Image : jsstring) : jsstring :=
  string_or (nth_error (split 44 base64Image) 1) base64Image.

Section Adapter.
Context {RT : Runtime}.

Definition analyzeVehicleByVin (vin : jsstring) : M jsval :=
  ai <- getAIClient ;;
  let systemPrompt := analyzeVehicleByVin_systemPrompt vin in
  response <- generateContent ai (lit "gemini-3-flash-preview")
    (contents_string (analyzeVehicleByVin_contents vin))
    {| systemInstruction := systemPrompt;
       responseMimeType := Some (lit "application/json");
       responseSchema := Some
         {| properties :=
              [ (lit "brand", string_property);
                (lit "model", string_property);
                (lit "deductionReasoning", string_property);
                (lit "yearOfManufacture", string_property);
                (lit "motorization", string_property);
                (lit "fuelType", fuelType_property);
                (lit "color", string_property) ];
            required :=
              [ lit "brand"; lit "model"; lit "deductionReasoning";
                lit "yearOfManufacture"; lit "motorization"; lit "fuelType" ] |} |} ;;
  let textResponse := text response in
  match textResponse with
  | None | Some [] => ret (JObj [])
  | Some t => lift (JSON.parse (trim t))
  end.

(** [String(rawData.k || fallback)] *)
Definition String_of_property (rawData : jsval) (k : string) (fallback : string)
  : outcome jsstring :=
  v <-! Get rawData (lit k) ;;
  ToString (or_else v (JStr (lit fallback))).

(** The record [analyzeVehicleCritical] returns, built from the parsed
    reply field by field in the order of the source. *)
Definition normalize (rawData : jsval) : outcome jsval :=
  vin <-! String_of_property rawData "vin" "" ;;
  let vin := toUpperCase unicode_upper (replace_not_AZ09_gi unicode_upper vin) in
  brand <-! String_of_property rawData "brand" "Inconnu" ;;
  let brand := toUpperCase unicode_upper brand in
  model <-! String_of_property rawData "model" "ANALYSE..." ;;
  let model := toUpperCase unicode_upper model in
  deductionReasoning <-! Get rawData (lit "deductionReasoning") ;;
  let deductionReasoning := or_else deductionReasoning (JStr []) in
  yearOfManufacture <-! String_of_property rawData "yearOfManufacture" "N/A" ;;
  licensePlate <-! String_of_property rawData "licensePlate" "" ;;
  registrationYear <-! String_of_property rawData "registrationYear" "" ;;
  Return (JObj
    [ (lit "vin", JStr vin);
      (lit "brand", JStr brand);
      (lit "model", JStr model);
      (lit "deductionReasoning", deductionReasoning);
      (lit "yearOfManufacture", JStr yearOfManufacture);
      (lit "licensePlate", JStr licensePlate);
      (lit "registrationYear", JStr registrationYear) ]).

Definition analyzeVehicleCritical (base64Image : jsstring) (mode_arg : option ScanType)
  : M jsval :=
  let mode := match mode_arg with Some m => m | None => lit "vin" end in
  ai <- getAIClient ;;
  let systemPrompt := analyzeVehicleCritical_systemPrompt in
  response <- generateContent ai (lit "gemini-3-flash-preview")
    (contents_parts
       [ inlineData (lit "image/jpeg") (image_data base64Image);
         text_part (analyzeVehicleCritical_text mode) ])
    {| systemInstruction := systemPrompt;
       responseMimeType := Some (lit "application/json");
       responseSchema := Some
         {| properties :=
              [ (lit "vin", string_property);
                (lit "brand", string_property);
                (lit "model", string_property);
                (lit "deductionReasoning", string_property);
                (lit "yearOfManufacture", string_property);
                (lit "licensePlate", string_property);
                (lit "registrationYear", string_property) ];
            required := [ lit "brand"; lit "vin"; lit "model" ] |} |} ;;
  let textResponse := text response in
  match textResponse with
  | None | Some [] => throw (Error (lit "IA_EMPTY_RESPONSE"))
  | Some t =>
      rawData <- lift (JSON.parse (trim t)) ;;
      lift (normalize rawData)
  end.

Definition analyzeVehicleDetails (base64Image : jsstring) (brand : jsstring) : M jsval :=
  ai <- getAIClient ;;
  let systemPrompt := analyzeVehicleDetails_systemPrompt brand in
  response <- generateContent ai (lit "gemini-3-flash-preview")
    (contents_parts
       [ inlineData (lit "image/jpeg") (image_data base64Image);
         text_part (analyzeVehicleDetails_text brand) ])
    {| systemInstruction := systemPrompt;
       responseMimeType := Some (lit "application/json");
       responseSchema := Some
         {| properties :=
              [ (lit "model", string_property);
                (lit "motorization", string_property);
                (lit "fuelType", fuelType_property);
                (lit "color", string_property);
                (lit "registrationYear", string_property);
                (lit "deductionReasoning", string_property) ];
            required := [] |} |} ;;
  let textResponse := text response in
  match textResponse with
  | None | Some [] => ret (JObj [])
  | Some t => lift (JSON.parse (trim t))
  end.

Definition getVinAnalysisReport (vin : jsstring) : M jsstring :=
  ai <- getAIClient ;;
  let systemPrompt := getVinAnalysisReport_systemPrompt vin in
  response <- generateContent ai (lit "gemini-3-pro-preview")
    (contents_string (getVinAnalysisReport_contents vin))
    {| systemInstruction := systemPrompt;
       responseMimeType := None;
       responseSchema := None |} ;;
  ret (string_or (option_map trim (text response))
         (lit "Impossible de générer le rapport pour ce VIN.")).

Definition chatWithExpert (history : list Content) (question : jsstring) : M jsstring :=
  ai <- getAIClient ;;
  response <- sendMessage ai (lit "gemini-3-flash-preview")
    {| systemInstruction := chatWithExpert_systemInstruction;
       responseMimeType := None;
       responseSchema := None |}
    history question ;;
  ret (string_or (option_map trim (text response))
         (lit "Désolé, je n'ai pas pu traiter votre demande.")).

Definition estimateMarketValue (vehicle : VehicleAnalysis) : M jsval :=
  ai <- getAIClient ;;
  let systemPrompt := estimateMarketValue_systemPrompt vehicle in
  response <- generateContent ai (lit "gemini-3-pro-preview")
    (contents_string (lit "Estime la valeur de ce véhicule."))
    {| systemInstruction := systemPrompt;
       responseMimeType := Some (lit "application/json");
       responseSchema := Some
         {| properties :=
              [ (lit "marketValueMin",
                 {| type := INTEGER; enum := None;
                    description := Some (lit "Prix minimum estimé en MAD") |});
                (lit "marketValueMax",
                 {| type := INTEGER; enum := None;
                    description := Some (lit "Prix maximum estimé en MAD") |});
                (lit "marketValueJustification",
                 {| type := STRING; enum := None;
                    description := Some (lit "Justification détaillée de l'estimation.") |}) ];
            required :=
              [ lit "marketValueMin"; lit "marketValueMax";
                lit "marketValueJustification" ] |} |} ;;
  let textResponse := text response in
  match textResponse with
  | None | Some [] => throw (Error (lit "IA_ESTIMATION_FAILED"))
  | Some t => lift (JSON.parse (trim t))
  end.

End Adapter.

(* ===================================================================== *)
(** ** The situations the properties speak of *)
(* ===================================================================== *)

(** The API key is present in the process configuration. *)
Definition has_key (w : world) : Prop :=
  exists c k, API_KEY w = Some (c :: k).

(** The API key is absent: [process.env.API_KEY] is [undefined] or empty. *)
Definition key_absent (w : world) : Prop :=
  API_KEY w = None \/ API_KEY w = Some [].

(** The oracle answers with a reply whose text is [t]. *)
Definition replies (w : world) (t : option jsstring) : Prop :=
  forall r, oracle w r = Return {| text := t |}.

(** A reply text that is empty or absent. *)
Definition empty_text (t : option jsstring) : Prop :=
  t = None \/ t = Some [].

(** A text that is not empty and holds white space only. *)
Definition blank (t : jsstring) : Prop :=
  t <> [] /\ Forall (fun c => is_white_space c = true) t.

Definition missing_credential : exn := Error (lit "Clé API Google Gemini manquante").
Definition report_fallback : jsstring := lit "Impossible de générer le rapport pour ce VIN.".
Definition chat_fallback : jsstring := lit "Désolé, je n'ai pas pu traiter votre demande.".

(** A world with a key, whose oracle always answers with the text [t]. *)
Definition constant_world (t : option jsstring) : world :=
  {| API_KEY := Some [107; 101; 121];
     oracle := fun _ => Return {| text := t |} |}.

(** The characters of [s] at the positions [a <= i < b], those that exist. *)
Definition chars_between (s : jsstring) (a b : nat) : jsstring :=
  flat_map (fun i => match nth_error s i with Some c => [c] | None => [] end)
           (seq a (b - a)).

(** The table of section 3 of the report, with the three codes it shows. *)
Definition decomposition_table (wmi vds vis : jsstring) : list jsstring :=
  [ lit "       | Section | Code | Signification |";
    lit "       | :--- | :--- | :--- |";
    lit "       | **WMI** | " ++ wmi ++ lit " | Constructeur / Pays |";
    lit "       | **VDS** | " ++ vds ++ lit " | Caractéristiques (Châssis, Moteur) |";
    lit "       | **VIS** | " ++ vis ++ lit " | Identification Unique / Usine |" ].

(** [block] is a run of whole lines of [text], neither first nor last. *)
Definition has_lines (text : jsstring) (block : list jsstring) : Prop :=
  exists before after, text = before ++ nl ++ unlines block ++ nl ++ after.

(** What stands before the first separator, or all of [s]. *)
Fixpoint before_sep (sep : code_unit) (s : jsstring) : jsstring :=
  match s with
  | [] => []
  | c :: r => if c =? sep then [] else c :: before_sep sep r
  end.

(** What stands after the first separator, if there is one. *)
Fixpoint after_sep (sep : code_unit) (s : jsstring) : option jsstring :=
  match s with
  | [] => None
  | c :: r => if c =? sep then Some r else after_sep sep r
  end.

(** The payload as the specification words it: what follows the first
    comma when there is a comma and something follows it, the input
    otherwise. *)
Definition after_first_comma_or_all (s : jsstring) : jsstring :=
  string_or (after_sep 44 s) s.

(** The payload between the first comma and the second one (or the end). *)
Definition between_commas_or_all (s : jsstring) : jsstring :=
  string_or (option_map (before_sep 44) (after_sep 44 s)) s.

(** The image payloads of the requests of a log. *)
Definition forwarded_data (log : list request) : list jsstring :=
  flat_map (fun r =>
    match r with
    | generateContent_request _ (contents_parts ps) _ =>
        flat_map (fun p => match p with inlineData _ d => [d] | _ => [] end) ps
    | _ => []
    end) log.

Definition is_ascii_alnum (c : code_unit) : bool :=
  is_upper c || is_lower c || is_digit c.

Section RecordDefs.
Context {RT : Runtime}.

(** The value of the own property [k] of a record. *)
Definition field (k : string) (r : jsval) : option jsval :=
  match r with
  | JObj props => own_property (lit k) props
  | _ => None
  end.

(** [String(v)] does not throw. *)
Definition converts (v : jsval) : Prop := exists s, ToString v = Return s.

(** The names of the fields [analyzeVehicleCritical] passes to [String]. *)
Definition coerced_fields : list string :=
  [ "vin"; "brand"; "model"; "yearOfManufacture"; "licensePlate";
    "registrationYear" ]%string.

(** A reply that holds [s] as its VIN and nothing else. *)
Definition vin_reply_prefix : jsstring :=
  lit "{" ++ dq ++ lit "vin" ++ dq ++ lit ":" ++ dq.

Definition vin_reply (s : jsstring) : jsstring :=
  vin_reply_prefix ++ s ++ dq ++ lit "}".

(** The record of seven fields. *)
Definition vehicle_record (vin brand model : jsstring) (deductionReasoning : jsval)
    (yearOfManufacture licensePlate registrationYear : jsstring) : jsval :=
  JObj
    [ (lit "vin", JStr vin);
      (lit "brand", JStr brand);
      (lit "model", JStr model);
      (lit "deductionReasoning", deductionReasoning);
      (lit "yearOfManufacture", JStr yearOfManufacture);
      (lit "licensePlate", JStr licensePlate);
      (lit "registrationYear", JStr registrationYear) ].

End RecordDefs.

Section Reachable.
Context {RT : Runtime}.

(** What holds of every state the recogniser reaches: the rest of a
  literal holds letters only, and no value is [undefined]. *)
Definition mode_ok (m : JSON.mode) : Prop :=
match m with
| JSON.InLiteral rest v =>
    Forall (fun x => is_white_space x = false) rest /\ v <> JUndefined
| JSON.Done v => v <> JUndefined
| _ => True
end.

Definition state_ok (s : JSON.state) : Prop := mode_ok (fst s).

End Reachable.

(** A reply with a field the schema does not declare and values that are
    not strings. *)
Definition sample_reply : jsstring :=
  lit " {" ++ dq ++ lit "brand" ++ dq ++ lit ": " ++ dq ++ lit "Dacia" ++ dq ++ lit ", "
    ++ dq ++ lit "model" ++ dq ++ lit ": 1310, "
    ++ dq ++ lit "extra" ++ dq ++ lit ": [true, null, {}]} ".

(** The record made from the reply [{}]. *)
Definition empty_object_record : jsval (RT := LiteralRuntime) :=
  vehicle_record [] (lit "INCONNU") (lit "ANALYSE...") (JStr []) (lit "N/A") [] [].

(* ===================================================================== *)
(** ** Further situations and values *)
(* ===================================================================== *)

(** The oracle's client rejects every request with [e]. *)
Definition rejects (w : world) (e : exn) : Prop :=
  forall r, oracle w r = Throw e.

(** A world with a key, whose oracle rejects every request with [e]. *)
Definition rejecting_world (e : exn) : world :=
  {| API_KEY := Some [107; 101; 121];
     oracle := fun _ => Throw e |}.

(** The characters a JSON value can start with: a quote, a brace, a
    bracket, a minus sign, a digit, or the first letter of [true], [false]
    and [null]. *)
Definition starts_json_value (c : code_unit) : bool :=
  (c =? 34) || (c =? 123) || (c =? 91) || (c =? 45) || is_digit c
  || (c =? 116) || (c =? 102) || (c =? 110).

(** The requests the operations send, by the model they name. *)
Definition is_generateContent (model : jsstring) (r : request) : Prop :=
  exists contents config, r = generateContent_request model contents config.

Section FurtherValues.
Context {RT : Runtime}.

(** The record whose seven fields are all placeholders. *)
Definition placeholder_record : jsval :=
  vehicle_record [] (lit "INCONNU") (lit "ANALYSE...") (JStr []) (lit "N/A") [] [].

(** A value that is neither an object nor [null] nor [undefined]: a
    boolean, a number, a string or an array. *)
Definition is_scalar_or_array (v : jsval) : bool :=
  match v with
  | JBool _ | JNum _ | JStr _ | JArr _ => true
  | _ => false
  end.




End FurtherValues.

(** A reply read off a registration document, with a VIN as typed, a
    reasoning that is a number and a registration year that is [null]. *)
Definition carte_grise_reply : jsstring :=
  lit "{" ++ dq ++ lit "vin" ++ dq ++ lit ":" ++ dq ++ lit "vf1-rfb 00é_7" ++ dq ++ lit ","
    ++ dq ++ lit "brand" ++ dq ++ lit ":" ++ dq ++ lit "Renault" ++ dq ++ lit ","
    ++ dq ++ lit "model" ++ dq ++ lit ":" ++ dq ++ lit "clio 5" ++ dq ++ lit ","
    ++ dq ++ lit "deductionReasoning" ++ dq ++ lit ":5,"
    ++ dq ++ lit "yearOfManufacture" ++ dq ++ lit ":" ++ dq ++ lit "2019" ++ dq ++ lit ","
    ++ dq ++ lit "licensePlate" ++ dq ++ lit ":" ++ dq ++ lit "12345-a-6" ++ dq ++ lit ","
    ++ dq ++ lit "registrationYear" ++ dq ++ lit ":null}".

Definition carte_grise_raw : jsval (RT := LiteralRuntime) :=
  JObj [ (lit "vin", JStr (lit "vf1-rfb 00é_7"));
         (lit "brand", JStr (lit "Renault"));
         (lit "model", JStr (lit "clio 5"));
         (lit "deductionReasoning", JNum (RT := LiteralRuntime) (lit "5"));
         (lit "yearOfManufacture", JStr (lit "2019"));
         (lit "licensePlate", JStr (lit "12345-a-6"));
         (lit "registrationYear", JNull) ].

Definition carte_grise_record : jsval (RT := LiteralRuntime) :=
  vehicle_record (lit "VF1RFB007") (lit "RENAULT") (lit "CLIO 5")
    (JNum (RT := LiteralRuntime) (lit "5")) (lit "2019") (lit "12345-a-6") [].



(* ===================================================================== *)
(** ** The built-ins on concrete inputs *)
(* ===================================================================== *)

Example split_data_uri :
  split 44 (lit "data:image/jpeg;base64,QUJD") = [lit "data:image/jpeg;base64"; lit "QUJD"].
Proof. vm_compute. reflexivity. Qed.

Example split_without_separator : split 44 (lit "QUJD") = [lit "QUJD"].
Proof. vm_compute. reflexivity. Qed.

Example substring_clamps : substring (lit "WVW") 3 9 = [] /\ substring (lit "WVWZ") 3 9 = lit "Z".
Proof. split; vm_compute; reflexivity. Qed.

Example trim_both_ends : trim (lit "  {} ") = lit "{}".
Proof. vm_compute. reflexivity. Qed.

Example toUpperCase_latin1 :
  toUpperCase latin1_upper (lit "Citroën") = lit "CITROËN".
Proof. vm_compute. reflexivity. Qed.

Example strip_vin :
  toUpperCase latin1_upper (replace_not_AZ09_gi latin1_upper (lit "vf1-rfb 00é_7")) =
  lit "VF1RFB007".
Proof. vm_compute. reflexivity. Qed.

Example parse_duplicate_key :
  JSON.parse (RT := LiteralRuntime)
    (lit "{" ++ dq ++ lit "a" ++ dq ++ lit ":1," ++ dq ++ lit "b" ++ dq ++ lit ":[true,null],"
       ++ dq ++ lit "a" ++ dq ++ lit ":-2.5e3}") =
  Return (JObj [ (lit "a", JNum (RT := LiteralRuntime) (lit "-2.5e3"));
                 (lit "b", JArr [JBool true; JNull]) ]).
Proof. vm_compute. reflexivity. Qed.

Example parse_escapes :
  JSON.parse (RT := LiteralRuntime) (dq ++ [92; 117; 48; 48; 69; 57; 92; 110] ++ dq) =
  Return (JStr [233; 10]).
Proof. vm_compute. reflexivity. Qed.

Example parse_rejects :
  JSON.parse (RT := LiteralRuntime) (lit "[1,]") = Throw SyntaxError /\
  JSON.parse (RT := LiteralRuntime) (lit "01") = Throw SyntaxError /\
  JSON.parse (RT := LiteralRuntime) (lit "{} x") = Throw SyntaxError /\
  JSON.parse (RT := LiteralRuntime) (lit "nul") = Throw SyntaxError.
Proof. repeat split; vm_compute; reflexivity. Qed.

Example ToString_array :
  ToString (RT := LiteralRuntime) (JArr [JNum (RT := LiteralRuntime) (lit "1"); JArr [JNull; JStr (lit "x")]; JObj []]) =
  Return (lit "1,,x,[object Object]").
Proof. vm_compute. reflexivity. Qed.

Example ToString_shadowed :
  ToString (RT := LiteralRuntime) (JObj [(lit "toString", JNum (RT := LiteralRuntime) (lit "1"))]) = Throw TypeError.
Proof. vm_compute. reflexivity. Qed.

(* ===================================================================== *)
(** ** Running the operations *)
(* ===================================================================== *)

Lemma getAIClient_present (w : world) (log : list request) :
  has_key w -> exists ai, getAIClient w log = (Return ai, log).
Proof.
  intros (c & k & Hk). unfold getAIClient. rewrite Hk. eauto.
Qed.

Lemma getAIClient_absent (w : world) (log : list request) :
  key_absent w -> getAIClient w log = (Throw missing_credential, log).
Proof.
  intros [Hk | Hk]; unfold getAIClient; rewrite Hk; reflexivity.
Qed.

Lemma bind_throw {A B : Type} (m : M A) (k : A -> M B) w log e log' :
  m w log = (Throw e, log') -> bind m k w log = (Throw e, log').
Proof. intros H. unfold bind. rewrite H. reflexivity. Qed.

Lemma bind_return {A B : Type} (m : M A) (k : A -> M B) w log a log' :
  m w log = (Return a, log') -> bind m k w log = k a w log'.
Proof. intros H. unfold bind. rewrite H. reflexivity. Qed.

Lemma send_replies (w : world) (t : option jsstring) ai r log :
  replies w t -> send ai r w log = (Return {| text := t |}, log ++ [r]).
Proof. intros H. unfold send. rewrite H. reflexivity. Qed.

(** With a key and an oracle that replies [t], an operation is its
    post-processing of [t]. *)
Ltac run_adapter Hkey Hrep :=
  let ai := fresh "ai" in
  let Hai := fresh "Hai" in
  match goal with
  | |- context [bind getAIClient ?k ?w ?log] =>
      destruct (getAIClient_present w log Hkey) as [ai Hai];
      rewrite (bind_return getAIClient k w log ai log Hai)
  end;
  cbv zeta;
  unfold generateContent, sendMessage;
  match goal with
  | |- context [bind (send ?a ?r) ?k ?w ?log] =>
      rewrite (bind_return (send a r) k w log _ _ (send_replies w _ a r log Hrep))
  end;
  cbv beta; cbn [text].

Section Runs.
Context {RT : Runtime}.

Lemma analyzeVehicleByVin_run w t vin log :
  has_key w -> replies w t ->
  fst (analyzeVehicleByVin vin w log) =
  match t with
  | None | Some [] => Return (JObj [])
  | Some t => JSON.parse (trim t)
  end.
Proof.
  intros Hkey Hrep. unfold analyzeVehicleByVin. run_adapter Hkey Hrep.
  destruct t as [[|c t]|]; reflexivity.
Qed.

Lemma analyzeVehicleDetails_run w t img brand log :
  has_key w -> replies w t ->
  fst (analyzeVehicleDetails img brand w log) =
  match t with
  | None | Some [] => Return (JObj [])
  | Some t => JSON.parse (trim t)
  end.
Proof.
  intros Hkey Hrep. unfold analyzeVehicleDetails. run_adapter Hkey Hrep.
  destruct t as [[|c t]|]; reflexivity.
Qed.

Lemma estimateMarketValue_run w t vehicle log :
  has_key w -> replies w t ->
  fst (estimateMarketValue vehicle w log) =
  match t with
  | None | Some [] => Throw (Error (lit "IA_ESTIMATION_FAILED"))
  | Some t => JSON.parse (trim t)
  end.
Proof.
  intros Hkey Hrep. unfold estimateMarketValue. run_adapter Hkey Hrep.
  destruct t as [[|c t]|]; reflexivity.
Qed.

Lemma analyzeVehicleCritical_run w t img mode log :
  has_key w -> replies w t ->
  fst (analyzeVehicleCritical img mode w log) =
  match t with
  | None | Some [] => Throw (Error (lit "IA_EMPTY_RESPONSE"))
  | Some t => outcome_bind (JSON.parse (trim t)) normalize
  end.
Proof.
  intros Hkey Hrep. unfold analyzeVehicleCritical. cbv zeta. run_adapter Hkey Hrep.
  destruct t as [[|c t]|]; try reflexivity.
  unfold bind, lift, outcome_bind.
  destruct (JSON.parse (trim (c :: t))); reflexivity.
Qed.

Lemma getVinAnalysisReport_run w t vin log :
  has_key w -> replies w t ->
  fst (getVinAnalysisReport vin w log) =
  Return (string_or (option_map trim t) report_fallback).
Proof.
  intros Hkey Hrep. unfold getVinAnalysisReport, report_fallback.
  run_adapter Hkey Hrep. reflexivity.
Qed.

Lemma chatWithExpert_run w t history question log :
  has_key w -> replies w t ->
  fst (chatWithExpert history question w log) =
  Return (string_or (option_map trim t) chat_fallback).
Proof.
  intros Hkey Hrep. unfold chatWithExpert, chat_fallback.
  run_adapter Hkey Hrep. reflexivity.
Qed.

End Runs.

(* ===================================================================== *)
(** ** Empty, absent and blank replies *)
(* ===================================================================== *)

Lemma trimStart_blank (t : jsstring) :
  Forall (fun c => is_white_space c = true) t -> trimStart t = [].
Proof.
  induction 1 as [|c t Hc _ IH]; simpl; [reflexivity|].
  rewrite Hc. exact IH.
Qed.

Lemma trim_blank (t : jsstring) :
  Forall (fun c => is_white_space c = true) t -> trim t = [].
Proof.
  intros H. unfold trim. rewrite (trimStart_blank t H). reflexivity.
Qed.

Lemma string_or_empty (t : option jsstring) (b : jsstring) :
  empty_text t -> string_or (option_map trim t) b = b.
Proof. intros [-> | ->]; reflexivity. Qed.

Lemma error_names_distinct :
  Error (lit "IA_EMPTY_RESPONSE") <> Error (lit "IA_ESTIMATION_FAILED").
Proof. vm_compute. discriminate. Qed.

Lemma constant_world_has_key (t : option jsstring) : has_key (constant_world t).
Proof. exists 107, [101; 121]. reflexivity. Defined.

Lemma constant_world_replies (t : option jsstring) : replies (constant_world t) t.
Proof. intros r. reflexivity. Defined.

Section EmptyReplies.
Context {RT : Runtime}.

Lemma parse_empty : JSON.parse [] = Throw SyntaxError.
Proof. reflexivity. Qed.

(** C1. When the text of the oracle's reply is empty or absent,
    [analyzeVehicleByVin] and [analyzeVehicleDetails] return the empty
    record, [analyzeVehicleCritical] throws the error IA_EMPTY_RESPONSE and
    [estimateMarketValue] the error IA_ESTIMATION_FAILED, two errors with
    different names, and [getVinAnalysisReport] and [chatWithExpert] return
    their fixed fallback strings. *)
Theorem empty_reply_policy (w : world) (t : option jsstring) (log : list request) :
  has_key w -> replies w t -> empty_text t ->
  (forall vin, fst (analyzeVehicleByVin vin w log) = Return (JObj [])) /\
  (forall img brand, fst (analyzeVehicleDetails img brand w log) = Return (JObj [])) /\
  (forall img mode,
      fst (analyzeVehicleCritical img mode w log) = Throw (Error (lit "IA_EMPTY_RESPONSE"))) /\
  (forall vehicle,
      fst (estimateMarketValue vehicle w log) = Throw (Error (lit "IA_ESTIMATION_FAILED"))) /\
  Error (lit "IA_EMPTY_RESPONSE") <> Error (lit "IA_ESTIMATION_FAILED") /\
  (forall vin, fst (getVinAnalysisReport vin w log) = Return report_fallback) /\
  (forall history question,
      fst (chatWithExpert history question w log) = Return chat_fallback).
Proof.
  intros Hkey Hrep Hempty. repeat split; intros.
  - rewrite (analyzeVehicleByVin_run w t) by assumption.
    destruct Hempty as [-> | ->]; reflexivity.
  - rewrite (analyzeVehicleDetails_run w t) by assumption.
    destruct Hempty as [-> | ->]; reflexivity.
  - rewrite (analyzeVehicleCritical_run w t) by assumption.
    destruct Hempty as [-> | ->]; reflexivity.
  - rewrite (estimateMarketValue_run w t) by assumption.
    destruct Hempty as [-> | ->]; reflexivity.
  - exact error_names_distinct.
  - rewrite (getVinAnalysisReport_run w t) by assumption.
    rewrite string_or_empty by assumption. reflexivity.
  - rewrite (chatWithExpert_run w t) by assumption.
    rewrite string_or_empty by assumption. reflexivity.
Qed.

(** C6. When the API key is absent from the process configuration, each
    of the six operations throws the missing-credential error, and the log
    of requests is what it was: nothing was sent to the oracle. *)
Theorem missing_credential_before_any_request (w : world) (log : list request) :
  key_absent w ->
  (forall vin, analyzeVehicleByVin vin w log = (Throw missing_credential, log)) /\
  (forall img mode, analyzeVehicleCritical img mode w log = (Throw missing_credential, log)) /\
  (forall img brand, analyzeVehicleDetails img brand w log = (Throw missing_credential, log)) /\
  (forall vin, getVinAnalysisReport vin w log = (Throw missing_credential, log)) /\
  (forall history question,
      chatWithExpert history question w log = (Throw missing_credential, log)) /\
  (forall vehicle, estimateMarketValue vehicle w log = (Throw missing_credential, log)).
Proof.
  intros Habs. pose proof (getAIClient_absent w log Habs) as H.
  repeat split; intros;
    unfold analyzeVehicleByVin, analyzeVehicleCritical, analyzeVehicleDetails,
      getVinAnalysisReport, chatWithExpert, estimateMarketValue;
    cbv zeta; apply bind_throw; exact H.
Qed.

(** C9. When the text of the reply is not empty and holds white space
    only, the four operations that parse JSON go on to [JSON.parse] with the
    trimmed (empty) text and throw its SyntaxError, while
    [getVinAnalysisReport] and [chatWithExpert], which trim before they test,
    return their fallback strings. *)
Theorem blank_reply_policy (w : world) (t : jsstring) (log : list request) :
  has_key w -> replies w (Some t) -> blank t ->
  (forall vin, fst (analyzeVehicleByVin vin w log) = Throw SyntaxError) /\
  (forall img brand, fst (analyzeVehicleDetails img brand w log) = Throw SyntaxError) /\
  (forall img mode, fst (analyzeVehicleCritical img mode w log) = Throw SyntaxError) /\
  (forall vehicle, fst (estimateMarketValue vehicle w log) = Throw SyntaxError) /\
  (forall vin, fst (getVinAnalysisReport vin w log) = Return report_fallback) /\
  (forall history question,
      fst (chatWithExpert history question w log) = Return chat_fallback).
Proof.
  intros Hkey Hrep [Hne Hws]. pose proof (trim_blank t Hws) as Htrim.
  destruct t as [|c t]; [congruence|].
  repeat split; intros.
  - rewrite (analyzeVehicleByVin_run w (Some (c :: t))) by assumption.
    rewrite Htrim. reflexivity.
  - rewrite (analyzeVehicleDetails_run w (Some (c :: t))) by assumption.
    rewrite Htrim. reflexivity.
  - rewrite (analyzeVehicleCritical_run w (Some (c :: t))) by assumption.
    rewrite Htrim. reflexivity.
  - rewrite (estimateMarketValue_run w (Some (c :: t))) by assumption.
    rewrite Htrim. reflexivity.
  - rewrite (getVinAnalysisReport_run w (Some (c :: t))) by assumption.
    cbn [option_map]. rewrite Htrim. reflexivity.
  - rewrite (chatWithExpert_run w (Some (c :: t))) by assumption.
    cbn [option_map]. rewrite Htrim. reflexivity.
Qed.

End EmptyReplies.

Lemma empty_reply_policy_witness :
  fst (analyzeVehicleCritical (RT := LiteralRuntime) [65] None (constant_world (Some [])) [])
  = Throw (Error (lit "IA_EMPTY_RESPONSE")).
Proof.
  exact (proj1 (proj2 (proj2
    (empty_reply_policy (RT := LiteralRuntime) (constant_world (Some [])) (Some []) []
       (constant_world_has_key _) (constant_world_replies _) (or_intror eq_refl))))
    [65] None).
Defined.

Lemma missing_credential_witness :
  analyzeVehicleByVin (RT := LiteralRuntime) [65]
    {| API_KEY := None; oracle := fun _ => Return {| text := Some [123; 125] |} |} []
  = (Throw missing_credential, []).
Proof.
  exact (proj1
    (missing_credential_before_any_request (RT := LiteralRuntime)
       {| API_KEY := None; oracle := fun _ => Return {| text := Some [123; 125] |} |} []
       (or_introl eq_refl))
    [65]).
Defined.

Lemma blank_reply_witness :
  fst (estimateMarketValue (RT := LiteralRuntime)
         {| va_brand := None; va_model := None; va_yearOfManufacture := None;
            va_registrationYear := None; va_motorization := None; va_fuelType := None;
            va_inventoryNotes := None |}
         (constant_world (Some [32; 10])) [])
  = Throw SyntaxError.
Proof.
  refine (proj1 (proj2 (proj2 (proj2
    (blank_reply_policy (RT := LiteralRuntime) (constant_world (Some [32; 10])) [32; 10] []
       (constant_world_has_key _) (constant_world_replies _) _)))) _).
  split; [discriminate | repeat constructor].
Defined.

(* ===================================================================== *)
(** ** The decomposition table of the report *)
(* ===================================================================== *)

Lemma chars_between_nil (a b : nat) : chars_between [] a b = [].
Proof.
  unfold chars_between. induction (seq a (b - a)) as [|i l IH]; simpl.
  - reflexivity.
  - destruct i; simpl; exact IH.
Qed.

Lemma chars_between_cons_S (c : code_unit) (s : jsstring) (a b : nat) :
  chars_between (c :: s) (S a) (S b) = chars_between s a b.
Proof.
  unfold chars_between. cbn [Nat.sub]. rewrite <- seq_shift.
  induction (seq a (b - a)) as [|i l IH]; simpl; [reflexivity|].
  rewrite IH. reflexivity.
Qed.

Lemma chars_between_cons_0 (c : code_unit) (s : jsstring) (b : nat) :
  chars_between (c :: s) 0 (S b) = c :: chars_between s 0 b.
Proof.
  unfold chars_between. cbn [Nat.sub seq flat_map nth_error app].
  rewrite Nat.sub_0_r. rewrite <- seq_shift.
  f_equal. induction (seq 0 b) as [|i l IH]; simpl; [reflexivity|].
  rewrite IH. reflexivity.
Qed.

Lemma chars_between_firstn (s : jsstring) (n : nat) :
  chars_between s 0 n = firstn n s.
Proof.
  revert s. induction n as [|n IH]; intros s.
  - reflexivity.
  - destruct s as [|c s].
    + apply chars_between_nil.
    + rewrite chars_between_cons_0, IH. reflexivity.
Qed.

Lemma chars_between_skipn (s : jsstring) (a n : nat) :
  chars_between s a (a + n) = firstn n (skipn a s).
Proof.
  revert s. induction a as [|a IH]; intros s.
  - apply chars_between_firstn.
  - destruct s as [|c s].
    + rewrite chars_between_nil. simpl. rewrite firstn_nil. reflexivity.
    + cbn [Nat.add skipn]. rewrite chars_between_cons_S. apply IH.
Qed.

(** [substring] with ordered bounds yields the characters between them. *)
Lemma substring_chars_between (s : jsstring) (a b : nat) :
  (a <= b)%nat -> substring s a b = chars_between s a b.
Proof.
  intros Hab. unfold substring.
  assert (E : chars_between s a b = firstn (b - a) (skipn a s)).
  { rewrite <- chars_between_skipn. f_equal. lia. }
  rewrite E. clear E.
  set (len := List.length s).
  destruct (Nat.le_gt_cases len a) as [Hlen | Hlen].
  - rewrite (skipn_all2 s) by (subst len; lia).
    rewrite (skipn_all2 s) by (subst len; lia).
    rewrite !firstn_nil. reflexivity.
  - rewrite (Nat.min_l a len) by lia.
    rewrite (Nat.min_l a (Nat.min b len)) by lia.
    rewrite (Nat.max_r a (Nat.min b len)) by lia.
    destruct (Nat.le_gt_cases b len) as [Hb | Hb].
    + rewrite (Nat.min_l b len) by lia. reflexivity.
    + rewrite (Nat.min_r b len) by lia.
      rewrite !firstn_all2; try reflexivity;
        rewrite length_skipn; subst len; lia.
Qed.

Lemma unlines_app (l1 l2 : list jsstring) :
  l1 <> [] -> l2 <> [] -> unlines (l1 ++ l2) = unlines l1 ++ nl ++ unlines l2.
Proof.
  intros H1 H2. induction l1 as [|a l1 IH]; [congruence|].
  destruct l1 as [|b l1].
  - destruct l2 as [|c l2]; [congruence|]. reflexivity.
  - change (unlines ((a :: b :: l1) ++ l2)) with (a ++ nl ++ unlines ((b :: l1) ++ l2)).
    rewrite IH by discriminate.
    change (unlines (a :: b :: l1)) with (a ++ nl ++ unlines (b :: l1)).
    rewrite <- !app_assoc. reflexivity.
Qed.

Lemma systemPrompt_table (vin : jsstring) :
  has_lines (getVinAnalysisReport_systemPrompt vin)
            (decomposition_table (substring vin 0 3) (substring vin 3 9) (substring vin 9 17)).
Proof.
  unfold getVinAnalysisReport_systemPrompt.
  match goal with
  | |- has_lines (unlines ?L) ?T =>
      exists (unlines (firstn 17 L)), (unlines (skipn 22 L));
      change L with (firstn 17 L ++ T ++ skipn 22 L)
  end.
  rewrite unlines_app by (cbv [firstn skipn app decomposition_table]; discriminate).
  rewrite unlines_app by (cbv [firstn skipn app decomposition_table]; discriminate).
  reflexivity.
Qed.

Lemma getVinAnalysisReport_log (w : world) (vin : jsstring) (log : list request) :
  has_key w ->
  snd (getVinAnalysisReport vin w log) =
  log ++ [generateContent_request (lit "gemini-3-pro-preview")
            (contents_string (getVinAnalysisReport_contents vin))
            {| systemInstruction := getVinAnalysisReport_systemPrompt vin;
               responseMimeType := None;
               responseSchema := None |}].
Proof.
  intros Hkey. unfold getVinAnalysisReport.
  destruct (getAIClient_present w log Hkey) as [ai Hai].
  match goal with
  | |- context [bind getAIClient ?k ?w ?log] =>
      rewrite (bind_return getAIClient k w log ai log Hai)
  end.
  cbv zeta. unfold generateContent, send, bind.
  destruct (oracle w _); reflexivity.
Qed.

(** C3. The instruction text [getVinAnalysisReport] sends for a VIN [vin],
    whatever [vin] is, holds the decomposition table whose WMI, VDS and
    VIS rows show the characters of [vin] at positions [0,3), [3,9) and
    [9,17); for the VIN WVWZZZ1KZAW000001 the VIS entry is AW000001. *)
Theorem report_decomposition_table (w : world) (vin : jsstring) (log : list request) :
  has_key w ->
  (exists model contents config,
      snd (getVinAnalysisReport vin w log) =
        log ++ [generateContent_request model contents config] /\
      has_lines (systemInstruction config)
        (decomposition_table (chars_between vin 0 3) (chars_between vin 3 9)
           (chars_between vin 9 17))) /\
  (vin = lit "WVWZZZ1KZAW000001" -> chars_between vin 9 17 = lit "AW000001").
Proof.
  intros Hkey. split.
  - eexists _, _, _. split.
    + apply getVinAnalysisReport_log. exact Hkey.
    + cbn [systemInstruction].
      rewrite <- !substring_chars_between by lia.
      apply systemPrompt_table.
  - intros ->. vm_compute. reflexivity.
Qed.

Lemma report_decomposition_table_witness :
  exists model contents config,
    snd (getVinAnalysisReport (lit "WVWZZZ1KZAW000001")
           (constant_world None) []) =
      [] ++ [generateContent_request model contents config] /\
    has_lines (systemInstruction config)
      (decomposition_table (chars_between (lit "WVWZZZ1KZAW000001") 0 3)
         (chars_between (lit "WVWZZZ1KZAW000001") 3 9)
         (chars_between (lit "WVWZZZ1KZAW000001") 9 17)).
Proof.
  exact (proj1 (report_decomposition_table (constant_world None)
                  (lit "WVWZZZ1KZAW000001") [] (constant_world_has_key _))).
Defined.

(* ===================================================================== *)
(** ** The payload of an image *)
(* ===================================================================== *)

Lemma split_unfold (sep : code_unit) (s : jsstring) :
  split sep s =
  before_sep sep s :: match after_sep sep s with
                      | Some r => split sep r
                      | None => []
                      end.
Proof.
  induction s as [|c s IH]; simpl; [reflexivity|].
  destruct (c =? sep); [reflexivity|].
  rewrite IH. reflexivity.
Qed.

Lemma split_second (sep : code_unit) (s : jsstring) :
  nth_error (split sep s) 1 = option_map (before_sep sep) (after_sep sep s).
Proof.
  rewrite split_unfold. cbn [nth_error].
  destruct (after_sep sep s) as [r|]; [|reflexivity].
  rewrite split_unfold. reflexivity.
Qed.

Lemma image_data_between_commas (img : jsstring) :
  image_data img = between_commas_or_all img.
Proof.
  unfold image_data, between_commas_or_all. rewrite split_second. reflexivity.
Qed.

Lemma before_sep_no_sep (sep : code_unit) (s : jsstring) :
  after_sep sep s = None -> before_sep sep s = s.
Proof.
  induction s as [|c s IH]; simpl; [reflexivity|].
  destruct (c =? sep); [discriminate|].
  intros H. rewrite (IH H). reflexivity.
Qed.

(** With at most one comma in the input both readings agree. *)
Lemma between_commas_single (img : jsstring) :
  (forall r, after_sep 44 img = Some r -> after_sep 44 r = None) ->
  between_commas_or_all img = after_first_comma_or_all img.
Proof.
  intros H. unfold between_commas_or_all, after_first_comma_or_all.
  destruct (after_sep 44 img) as [r|] eqn:E; [|reflexivity].
  cbn [option_map]. rewrite (before_sep_no_sep 44 r (H r eq_refl)). reflexivity.
Qed.

Section ImagePayload.
Context {RT : Runtime}.

Lemma analyzeVehicleCritical_log w img mode log :
  has_key w ->
  exists model text config,
    snd (analyzeVehicleCritical img mode w log) =
    log ++ [generateContent_request model
              (contents_parts [inlineData (lit "image/jpeg") (image_data img);
                               text_part text]) config].
Proof.
  intros Hkey. unfold analyzeVehicleCritical. cbv zeta.
  destruct (getAIClient_present w log Hkey) as [ai Hai].
  match goal with
  | |- context [bind getAIClient ?k ?w ?log] =>
      rewrite (bind_return getAIClient k w log ai log Hai)
  end.
  eexists _, _, _.
  unfold generateContent, send. unfold bind at 1.
  destruct (oracle w _) as [[[[|c t]|]]|]; try reflexivity.
  cbn [text]. unfold bind, lift.
  destruct (JSON.parse (trim (c :: t))); reflexivity.
Qed.

Lemma analyzeVehicleDetails_log w img brand log :
  has_key w ->
  exists model text config,
    snd (analyzeVehicleDetails img brand w log) =
    log ++ [generateContent_request model
              (contents_parts [inlineData (lit "image/jpeg") (image_data img);
                               text_part text]) config].
Proof.
  intros Hkey. unfold analyzeVehicleDetails. cbv zeta.
  destruct (getAIClient_present w log Hkey) as [ai Hai].
  match goal with
  | |- context [bind getAIClient ?k ?w ?log] =>
      rewrite (bind_return getAIClient k w log ai log Hai)
  end.
  eexists _, _, _.
  unfold generateContent, send. unfold bind at 1.
  destruct (oracle w _) as [[[[|c t]|]]|]; reflexivity.
Qed.

Lemma forwarded_data_snoc log model mime data text config :
  forwarded_data
    (log ++ [generateContent_request model
               (contents_parts [inlineData mime data; text_part text]) config]) =
  forwarded_data log ++ [data].
Proof. unfold forwarded_data. rewrite flat_map_app. reflexivity. Qed.

(** C8, as the code has it. The payload an image operation forwards is
    the part of the input between its first comma and its second comma (or
    its end) when the input has a comma and that part is not empty, and the
    whole input otherwise; for an input with a single comma, as a data URI
    is, this is what follows the comma. *)
Theorem image_payload_forwarded (w : world) (img : jsstring) (log : list request) :
  has_key w ->
  (forall mode,
      forwarded_data (snd (analyzeVehicleCritical img mode w log)) =
      forwarded_data log ++ [between_commas_or_all img]) /\
  (forall brand,
      forwarded_data (snd (analyzeVehicleDetails img brand w log)) =
      forwarded_data log ++ [between_commas_or_all img]) /\
  ((forall r, after_sep 44 img = Some r -> after_sep 44 r = None) ->
   between_commas_or_all img = after_first_comma_or_all img).
Proof.
  intros Hkey. repeat split.
  - intros mode.
    destruct (analyzeVehicleCritical_log w img mode log Hkey) as (m & t & c & ->).
    rewrite forwarded_data_snoc, image_data_between_commas. reflexivity.
  - intros brand.
    destruct (analyzeVehicleDetails_log w img brand log Hkey) as (m & t & c & ->).
    rewrite forwarded_data_snoc, image_data_between_commas. reflexivity.
  - apply between_commas_single.
Qed.

End ImagePayload.

Lemma image_payload_forwarded_witness :
  forwarded_data
    (snd (analyzeVehicleCritical (RT := LiteralRuntime) (lit "data:image/jpeg;base64,QUJD")
            None (constant_world None) [])) =
  forwarded_data [] ++ [between_commas_or_all (lit "data:image/jpeg;base64,QUJD")].
Proof.
  exact (proj1 (image_payload_forwarded (RT := LiteralRuntime) (constant_world None)
                  (lit "data:image/jpeg;base64,QUJD") [] (constant_world_has_key _)) None).
Defined.

(** C8, as the specification words it, fails on an input with two commas:
    of [a,b,c] the operation forwards [b], not [b,c]. *)
Lemma image_payload_counterexample :
  forwarded_data
    (snd (analyzeVehicleCritical (RT := LiteralRuntime) (lit "a,b,c") None
            (constant_world None) [])) = [lit "b"] /\
  after_first_comma_or_all (lit "a,b,c") = lit "b,c" /\
  lit "b" <> lit "b,c".
Proof.
  split; [vm_compute; reflexivity|].
  split; [vm_compute; reflexivity|].
  vm_compute. discriminate.
Qed.

(* ===================================================================== *)
(** ** Case mapping and the VIN filter *)
(* ===================================================================== *)

Ltac split_comparisons :=
  repeat match goal with
    | |- context [N.leb ?a ?b] => destruct (N.leb_spec a b)
    | |- context [N.ltb ?a ?b] => destruct (N.ltb_spec a b)
    | |- context [N.eqb ?a ?b] => destruct (N.eqb_spec a b)
    | H : context [N.leb ?a ?b] |- _ => destruct (N.leb_spec a b)
    | H : context [N.ltb ?a ?b] |- _ => destruct (N.ltb_spec a b)
    | H : context [N.eqb ?a ?b] |- _ => destruct (N.eqb_spec a b)
    end;
  cbn [andb orb negb] in *.

Lemma ascii_upper_le (c : code_unit) : ascii_upper c <= c.
Proof. unfold ascii_upper, is_lower. split_comparisons; lia. Qed.

Lemma ascii_upper_fixes_upper_alnum (c : code_unit) :
  is_upper_alnum c = true -> ascii_upper c = c.
Proof.
  unfold is_upper_alnum, ascii_upper, is_upper, is_digit, is_lower.
  split_comparisons; intros; try reflexivity; try discriminate; lia.
Qed.

Lemma ascii_upper_alnum (c : code_unit) :
  is_upper_alnum (ascii_upper c) = is_ascii_alnum c.
Proof.
  unfold is_upper_alnum, is_ascii_alnum, ascii_upper, is_upper, is_digit, is_lower.
  destruct ((97 <=? c) && (c <=? 122)) eqn:E.
  - apply andb_prop in E. destruct E as [E1 E2].
    apply N.leb_le in E1. apply N.leb_le in E2.
    split_comparisons; try reflexivity; lia.
  - rewrite orb_false_r. reflexivity.
Qed.

Lemma upper_alnum_below_128 (c : code_unit) : is_upper_alnum c = true -> c < 128.
Proof.
  unfold is_upper_alnum, is_upper, is_digit.
  split_comparisons; intros; try discriminate; lia.
Qed.

Lemma ascii_alnum_below_128 (c : code_unit) : is_ascii_alnum c = true -> c < 128.
Proof.
  unfold is_ascii_alnum, is_upper, is_digit, is_lower.
  split_comparisons; intros; try discriminate; lia.
Qed.

Lemma utf16_decode_no_surrogate (s : jsstring) :
  Forall (fun c => c < 0xD800) s -> utf16_decode s = s.
Proof.
  induction 1 as [|c s Hc Hs IH]; [reflexivity|].
  cbn [utf16_decode]. destruct s as [|d s']; [reflexivity|].
  replace (is_high_surrogate c) with false
    by (unfold is_high_surrogate; split_comparisons; try reflexivity; lia).
  cbn [andb]. rewrite IH. reflexivity.
Qed.

Section UpperCaseFacts.
Variable upper_table : N -> list N.

Lemma toUpperCase_ascii (s : jsstring) :
  Forall (fun c => c < 128) s -> toUpperCase upper_table s = map ascii_upper s.
Proof.
  intros H. unfold toUpperCase.
  rewrite utf16_decode_no_surrogate
    by (eapply Forall_impl; [|exact H]; cbv beta; intros; lia).
  induction H as [|c s Hc Hs IH]; [reflexivity|].
  cbn [flat_map map]. rewrite flat_map_app, IH.
  unfold to_upper_cp. apply N.ltb_lt in Hc. rewrite Hc.
  cbn [flat_map app]. unfold utf16_encode.
  apply N.ltb_lt in Hc. pose proof (ascii_upper_le c).
  replace (ascii_upper c <? 0x10000) with true by (symmetry; apply N.ltb_lt; lia).
  reflexivity.
Qed.

Lemma Canonicalize_ascii (c : code_unit) :
  c < 128 -> Canonicalize upper_table c = ascii_upper c.
Proof.
  intros Hc. unfold Canonicalize.
  rewrite toUpperCase_ascii by (constructor; [exact Hc | constructor]).
  cbn [map]. replace (128 <=? c) with false by (symmetry; apply N.leb_gt; exact Hc).
  reflexivity.
Qed.

Lemma Canonicalize_non_ascii (c : code_unit) :
  128 <= c -> 128 <= Canonicalize upper_table c.
Proof.
  intros Hc. unfold Canonicalize.
  destruct (toUpperCase upper_table [c]) as [|cu [|cu' r]]; try exact Hc.
  replace (128 <=? c) with true by (symmetry; apply N.leb_le; exact Hc).
  cbn [andb]. destruct (N.ltb_spec cu 128); [exact Hc | assumption].
Qed.

Lemma in_class_AZ09 (a : code_unit) :
  In a class_AZ09 <-> is_upper_alnum a = true.
Proof.
  unfold class_AZ09, is_upper_alnum, is_upper, is_digit. split.
  - intros H. apply in_app_or in H.
    destruct H as [H | H]; apply in_map_iff in H; destruct H as (n & <- & Hn);
      apply in_seq in Hn; split_comparisons; try reflexivity; lia.
  - intros H. apply in_or_app. apply orb_true_iff in H.
    destruct H as [H | H]; apply andb_true_iff in H; destruct H as [H1 H2];
      apply N.leb_le in H1; apply N.leb_le in H2;
      [left | right]; rewrite <- (N2Nat.id a); apply in_map, in_seq; lia.
Qed.

(** Without the [u] flag, case-insensitive matching never folds a
    character above U+007F onto an ASCII one: the pattern removes exactly
    what is not an ASCII letter or digit. *)
Lemma matches_not_AZ09_i_spec (c : code_unit) :
  matches_not_AZ09_i upper_table c = negb (is_ascii_alnum c).
Proof.
  unfold matches_not_AZ09_i. f_equal.
  apply Bool.eq_true_iff_eq. rewrite existsb_exists. split.
  - intros (a & Ha & Hac). apply in_class_AZ09 in Ha.
    apply N.eqb_eq in Hac.
    rewrite Canonicalize_ascii in Hac by (apply upper_alnum_below_128; exact Ha).
    rewrite ascii_upper_fixes_upper_alnum in Hac by exact Ha.
    destruct (N.lt_ge_cases c 128) as [Hc | Hc].
    + rewrite Canonicalize_ascii in Hac by exact Hc.
      rewrite <- ascii_upper_alnum, <- Hac. exact Ha.
    + apply Canonicalize_non_ascii in Hc. rewrite <- Hac in Hc.
      apply upper_alnum_below_128 in Ha. lia.
  - intros Hc. pose proof (ascii_alnum_below_128 c Hc) as Hlt.
    rewrite <- ascii_upper_alnum in Hc.
    exists (ascii_upper c). split; [apply in_class_AZ09; exact Hc|].
    apply N.eqb_eq.
    rewrite (Canonicalize_ascii c) by exact Hlt.
    rewrite Canonicalize_ascii by (apply upper_alnum_below_128; exact Hc).
    apply ascii_upper_fixes_upper_alnum. exact Hc.
Qed.

Lemma replace_not_AZ09_gi_filter (s : jsstring) :
  replace_not_AZ09_gi upper_table s = filter is_ascii_alnum s.
Proof.
  unfold replace_not_AZ09_gi. apply filter_ext. intros c.
  rewrite matches_not_AZ09_i_spec. apply negb_involutive.
Qed.

(** The VIN of the record: uppercase letters and digits only. *)
Lemma stripped_vin_upper_alnum (s : jsstring) :
  Forall (fun c => is_upper_alnum c = true)
         (toUpperCase upper_table (replace_not_AZ09_gi upper_table s)).
Proof.
  rewrite replace_not_AZ09_gi_filter.
  rewrite toUpperCase_ascii.
  - apply Forall_forall. intros c Hc. apply in_map_iff in Hc.
    destruct Hc as (d & <- & Hd). apply filter_In in Hd.
    rewrite ascii_upper_alnum. apply Hd.
  - apply Forall_forall. intros c Hc. apply filter_In in Hc.
    apply ascii_alnum_below_128. apply Hc.
Qed.

(** A string of uppercase letters and digits goes through unchanged. *)
Lemma stripped_vin_fixed (s : jsstring) :
  Forall (fun c => is_upper_alnum c = true) s ->
  toUpperCase upper_table (replace_not_AZ09_gi upper_table s) = s.
Proof.
  intros H. rewrite replace_not_AZ09_gi_filter.
  assert (Hf : filter is_ascii_alnum s = s).
  { induction H as [|c s Hc Hs IH]; [reflexivity|].
    cbn [filter]. rewrite <- ascii_upper_alnum.
    rewrite (ascii_upper_fixes_upper_alnum c Hc), Hc, IH. reflexivity. }
  rewrite Hf. rewrite toUpperCase_ascii.
  - induction H as [|c s Hc Hs IH]; [reflexivity|].
    cbn [map]. rewrite (ascii_upper_fixes_upper_alnum c Hc).
    f_equal. apply IH.
    clear - Hs. induction Hs as [|d s Hd Hs IH]; [reflexivity|].
    cbn [filter]. rewrite <- ascii_upper_alnum.
    rewrite (ascii_upper_fixes_upper_alnum d Hd), Hd, IH. reflexivity.
  - eapply Forall_impl; [|exact H]. apply upper_alnum_below_128.
Qed.

End UpperCaseFacts.

(* ===================================================================== *)
(** ** The record built by [analyzeVehicleCritical] *)
(* ===================================================================== *)

Lemma outcome_bind_inv {A B : Type} (o : outcome A) (k : A -> outcome B) (b : B) :
  outcome_bind o k = Return b -> exists a, o = Return a /\ k a = Return b.
Proof. destruct o as [a|e]; simpl; [eauto | discriminate]. Qed.

Section RecordFacts.
Context {RT : Runtime}.

Lemma vehicle_record_fields vin brand model dr year plate reg :
  let r := vehicle_record vin brand model dr year plate reg in
  field "vin" r = Some (JStr vin) /\
  field "brand" r = Some (JStr brand) /\
  field "model" r = Some (JStr model) /\
  field "deductionReasoning" r = Some dr /\
  field "yearOfManufacture" r = Some (JStr year) /\
  field "licensePlate" r = Some (JStr plate) /\
  field "registrationYear" r = Some (JStr reg).
Proof. repeat split; vm_compute; reflexivity. Qed.

Lemma String_of_property_inv raw k d s :
  String_of_property raw k d = Return s ->
  exists v, Get raw (lit k) = Return v /\ ToString (or_else v (JStr (lit d))) = Return s.
Proof. unfold String_of_property. apply outcome_bind_inv. Qed.

Lemma String_of_property_missing raw k d s :
  String_of_property raw k d = Return s ->
  Get raw (lit k) = Return JUndefined -> s = lit d.
Proof.
  intros H Hget. apply String_of_property_inv in H.
  destruct H as (v & Hv & Hs). rewrite Hget in Hv. injection Hv as <-.
  cbn in Hs. congruence.
Qed.

Lemma String_of_property_empty raw k d s :
  String_of_property raw k d = Return s ->
  Get raw (lit k) = Return (JStr []) -> s = lit d.
Proof.
  intros H Hget. apply String_of_property_inv in H.
  destruct H as (v & Hv & Hs). rewrite Hget in Hv. injection Hv as <-.
  cbn in Hs. congruence.
Qed.

(** What [normalize] returns, when it returns. *)
Lemma normalize_inv raw r :
  normalize raw = Return r ->
  exists vin brand model dr year plate reg,
    String_of_property raw "vin" "" = Return vin /\
    String_of_property raw "brand" "Inconnu" = Return brand /\
    String_of_property raw "model" "ANALYSE..." = Return model /\
    Get raw (lit "deductionReasoning") = Return dr /\
    String_of_property raw "yearOfManufacture" "N/A" = Return year /\
    String_of_property raw "licensePlate" "" = Return plate /\
    String_of_property raw "registrationYear" "" = Return reg /\
    r = vehicle_record
          (toUpperCase unicode_upper (replace_not_AZ09_gi unicode_upper vin))
          (toUpperCase unicode_upper brand)
          (toUpperCase unicode_upper model)
          (or_else dr (JStr []))
          year plate reg.
Proof.
  unfold normalize. intros H. cbv zeta in H.
  apply outcome_bind_inv in H. destruct H as (vin & Hvin & H).
  apply outcome_bind_inv in H. destruct H as (brand & Hbrand & H).
  apply outcome_bind_inv in H. destruct H as (model & Hmodel & H).
  apply outcome_bind_inv in H. destruct H as (dr & Hdr & H).
  apply outcome_bind_inv in H. destruct H as (year & Hyear & H).
  apply outcome_bind_inv in H. destruct H as (plate & Hplate & H).
  apply outcome_bind_inv in H. destruct H as (reg & Hreg & H).
  injection H as <-.
  exists vin, brand, model, dr, year, plate, reg.
  repeat (split; [assumption|]). reflexivity.
Qed.

(** When the six conversions succeed, [normalize] returns. *)
Lemma normalize_returns raw vin brand model dr year plate reg :
  String_of_property raw "vin" "" = Return vin ->
  String_of_property raw "brand" "Inconnu" = Return brand ->
  String_of_property raw "model" "ANALYSE..." = Return model ->
  Get raw (lit "deductionReasoning") = Return dr ->
  String_of_property raw "yearOfManufacture" "N/A" = Return year ->
  String_of_property raw "licensePlate" "" = Return plate ->
  String_of_property raw "registrationYear" "" = Return reg ->
  normalize raw =
  Return (vehicle_record
            (toUpperCase unicode_upper (replace_not_AZ09_gi unicode_upper vin))
            (toUpperCase unicode_upper brand)
            (toUpperCase unicode_upper model)
            (or_else dr (JStr []))
            year plate reg).
Proof.
  intros H1 H2 H3 H4 H5 H6 H7. unfold normalize.
  rewrite H1. cbn [outcome_bind]. rewrite H2. cbn [outcome_bind].
  rewrite H3. cbn [outcome_bind]. rewrite H4. cbn [outcome_bind].
  rewrite H5. cbn [outcome_bind]. rewrite H6. cbn [outcome_bind].
  rewrite H7. reflexivity.
Qed.

(** The operation returns only the record made from a parsed reply. *)
Lemma analyzeVehicleCritical_returns w img mode log r :
  has_key w ->
  fst (analyzeVehicleCritical img mode w log) = Return r ->
  exists t raw,
    t <> [] /\ JSON.parse (trim t) = Return raw /\ normalize raw = Return r.
Proof.
  intros Hkey. unfold analyzeVehicleCritical. cbv zeta.
  destruct (getAIClient_present w log Hkey) as [ai Hai].
  match goal with
  | |- context [bind getAIClient ?k ?w ?log] =>
      rewrite (bind_return getAIClient k w log ai log Hai)
  end.
  unfold generateContent, send. unfold bind at 1.
  destruct (oracle w _) as [[[[|c t]|]]|]; try (cbn [fst]; discriminate).
  cbn [text]. unfold bind, lift.
  destruct (JSON.parse (trim (c :: t))) as [raw|e] eqn:E; cbn [fst]; [|discriminate].
  intros H. exists (c :: t), raw. split; [discriminate|]. split; assumption.
Qed.

Lemma analyzeVehicleCritical_parsed w t raw img mode log :
  has_key w -> replies w (Some t) -> JSON.parse (trim t) = Return raw ->
  fst (analyzeVehicleCritical img mode w log) = normalize raw.
Proof.
  intros Hkey Hrep Hparse.
  rewrite (analyzeVehicleCritical_run w (Some t)) by assumption.
  destruct t as [|c t].
  - cbn in Hparse. discriminate.
  - rewrite Hparse. reflexivity.
Qed.

End RecordFacts.

(* ===================================================================== *)
(** ** Facts about [JSON.parse] *)
(* ===================================================================== *)

Lemma white_space_range (c : code_unit) :
  is_white_space c = true -> c <= 32 \/ 160 <= c.
Proof.
  unfold is_white_space. intros H.
  repeat (apply orb_true_iff in H; destruct H as [H | H]);
    try (apply N.eqb_eq in H; lia).
  apply andb_true_iff in H. destruct H as [H _]. apply N.leb_le in H. lia.
Qed.

Lemma json_ws_is_white_space (c : code_unit) :
  JSON.is_ws c = true -> is_white_space c = true.
Proof.
  unfold JSON.is_ws. intros H.
  repeat (apply orb_true_iff in H; destruct H as [H | H]);
    apply N.eqb_eq in H; subst c; reflexivity.
Qed.

(** Destructs the tests and matches of a hypothesis, one at a time. *)
Ltac case_hyp H :=
  repeat match type of H with
    | context [if ?b then _ else _] =>
        let E := fresh "E" in destruct b eqn:E; try discriminate H
    | context [match ?x with _ => _ end] =>
        let E := fresh "E" in destruct x eqn:E; try discriminate H
    end.

Module JSONFacts.
Import JSON.
Section Facts.
Context {RT : Runtime}.

Lemma deliver_ok v st s' :
  v <> JUndefined -> deliver v st = Some s' -> state_ok s'.
Proof.
  intros Hv H. unfold deliver in H. case_hyp H; injection H as <-; exact Hv || exact I.
Qed.

Lemma start_value_range c st s' :
  start_value c st = Some s' -> 32 < c /\ c < 160.
Proof.
  unfold start_value, is_digit. intros H.
  case_hyp H;
    repeat match goal with
      | E : (_ =? _) = true |- _ => apply N.eqb_eq in E
      | E : (_ && _) = true |- _ => apply andb_true_iff in E; destruct E
      | E : (_ <=? _) = true |- _ => apply N.leb_le in E
      end; lia.
Qed.

Lemma start_value_ok c st s' :
  start_value c st = Some s' -> state_ok s'.
Proof.
  unfold start_value. intros H.
  case_hyp H; injection H as <-; try exact I;
    (split; [vm_compute; repeat constructor | discriminate]).
Qed.

Lemma step_after_ok m st c s' :
  mode_ok m -> step_after m st c = Some s' -> state_ok s'.
Proof.
  intros Hm H. unfold step_after, close_array, close_object in H.
  case_hyp H; try (injection H as <-; first [exact I | exact Hm]);
    eapply deliver_ok; try exact H; discriminate.
Qed.

Lemma step_ok s c s' : state_ok s -> step s c = Some s' -> state_ok s'.
Proof.
  destruct s as [m st]. unfold state_ok. cbn [fst]. intros Hm H.
  destruct m; cbn [step] in H;
    try (eapply step_after_ok; [exact Hm | exact H]).
  - (* Value *)
    case_hyp H; [injection H as <-; exact I | eapply start_value_ok; exact H].
  - (* ArrFirst *)
    unfold close_array in H.
    case_hyp H; try (injection H as <-; exact I);
      first [ eapply start_value_ok; exact H
            | eapply deliver_ok; [|exact H]; discriminate ].
  - (* ObjFirst *)
    unfold close_object in H.
    case_hyp H; try (injection H as <-; exact I);
      eapply deliver_ok; [|exact H]; discriminate.
  - (* ObjKey *)
    case_hyp H; injection H as <-; exact I.
  - (* Colon *)
    case_hyp H; injection H as <-; exact I.
  - (* InString *)
    unfold end_string in H.
    case_hyp H; try (injection H as <-; exact I);
      eapply deliver_ok; [|exact H]; discriminate.
  - (* InEscape *)
    case_hyp H; injection H as <-; exact I.
  - (* InUnicode *)
    case_hyp H; injection H as <-; exact I.
  - (* InNumber *)
    case_hyp H; try (injection H as <-; exact I).
    eapply step_after_ok; [|exact H].
    match goal with
    | E : deliver _ _ = Some _ |- _ =>
        apply deliver_ok in E; [exact E | discriminate]
    end.
  - (* InLiteral *)
    destruct Hm as [Hrest Hv].
    case_hyp H.
    + eapply deliver_ok; [exact Hv | exact H].
    + injection H as <-. subst. inversion Hrest; subst. split; assumption.
Qed.

Lemma run_ok text : forall s s', state_ok s -> run s text = Some s' -> state_ok s'.
Proof.
  induction text as [|c text IH]; intros s s' Hs H; cbn [run] in H.
  - injection H as <-. exact Hs.
  - destruct (step s c) as [s1|] eqn:E; [|discriminate].
    eapply IH; [|exact H]. eapply step_ok; eassumption.
Qed.

Lemma init_ok : state_ok init.
Proof. exact I. Qed.

Lemma run_app (a b : jsstring) (s : state) :
  run s (a ++ b) = match run s a with
                   | Some s' => run s' b
                   | None => None
                   end.
Proof.
  revert s. induction a as [|c a IH]; intros s; cbn [run app]; [reflexivity|].
  destruct (step s c); [apply IH | reflexivity].
Qed.

Lemma parse_Return (text : jsstring) (v : jsval) :
  parse text = Return v <->
  exists s, run init text = Some s /\ finish s = Some v.
Proof.
  unfold parse. split.
  - intros H. destruct (run init text) as [s|]; [|discriminate].
    exists s. split; [reflexivity|].
    destruct (finish s); [congruence | discriminate].
  - intros (s & -> & ->). reflexivity.
Qed.

(** [JSON.parse] never returns [undefined]. *)
Lemma parse_defined (text : jsstring) (v : jsval) :
  parse text = Return v -> v <> JUndefined.
Proof.
  intros H. apply parse_Return in H. destruct H as (s & Hrun & Hfin).
  apply run_ok in Hrun; [|exact init_ok].
  destruct s as [m st]. unfold finish in Hfin.
  case_hyp Hfin; injection Hfin as <-; [exact Hrun | discriminate].
Qed.

End Facts.
End JSONFacts.

Ltac to_props :=
  repeat match goal with
    | E : (_ =? _) = true |- _ => apply N.eqb_eq in E
    | E : (_ && _) = true |- _ => apply andb_true_iff in E; destruct E
    | E : (_ || _) = true |- _ => apply orb_true_iff in E; destruct E
    | E : (_ <=? _) = true |- _ => apply N.leb_le in E
    | E : (_ <? _) = true |- _ => apply N.ltb_lt in E
    end.

Module TrimFacts.
Import JSON JSONFacts.
Section Facts.
Context {RT : Runtime}.

Lemma num_next_white_space n c :
  is_white_space c = true -> num_next n c = None.
Proof.
  intros Hc. apply white_space_range in Hc.
  destruct (num_next n c) as [n'|] eqn:E; [exfalso | reflexivity].
  unfold num_next, is_digit, is_e in E.
  destruct n; case_hyp E; to_props; lia.
Qed.

Lemma step_after_white_space m st c s1 :
  is_white_space c = true -> step_after m st c = Some s1 -> s1 = (m, st).
Proof.
  intros Hc H. apply white_space_range in Hc.
  unfold step_after in H.
  case_hyp H; try (injection H as <-; reflexivity); exfalso; to_props; lia.
Qed.

(** White space after a state changes nothing of what the end of the text
    would yield there. *)
Lemma white_space_step_finish s c s1 v :
  state_ok s -> is_white_space c = true ->
  step s c = Some s1 -> finish s1 = Some v -> finish s = Some v.
Proof.
  intros Hs Hc Hstep Hfin. pose proof (white_space_range c Hc) as Hr.
  destruct s as [m st]. destruct m; cbn [step] in Hstep;
    try (apply step_after_white_space in Hstep; [subst s1; exact Hfin | exact Hc]).
  - (* Value *)
    case_hyp Hstep; [injection Hstep as <-; exact Hfin|].
    apply start_value_range in Hstep. lia.
  - (* ArrFirst *)
    case_hyp Hstep; [injection Hstep as <-; exact Hfin | to_props; lia |].
    apply start_value_range in Hstep. lia.
  - (* ObjFirst *)
    case_hyp Hstep; [injection Hstep as <-; exact Hfin | to_props; lia ..].
  - (* ObjKey *)
    case_hyp Hstep; [injection Hstep as <-; exact Hfin | to_props; lia].
  - (* Colon *)
    case_hyp Hstep; [injection Hstep as <-; exact Hfin | to_props; lia].
  - (* InString *)
    case_hyp Hstep; [to_props; lia ..|].
    injection Hstep as <-. discriminate Hfin.
  - (* InEscape *)
    case_hyp Hstep; injection Hstep as <-; discriminate Hfin.
  - (* InUnicode *)
    case_hyp Hstep; injection Hstep as <-; discriminate Hfin.
  - (* InNumber *)
    rewrite (num_next_white_space n c Hc) in Hstep.
    destruct (num_accepting n) eqn:Hacc; [|discriminate].
    destruct st as [|f st'].
    + cbn [deliver] in Hstep.
      apply step_after_white_space in Hstep; [|exact Hc]. subst s1.
      cbn [finish] in *. rewrite Hacc. exact Hfin.
    + destruct (deliver (JNum (StringToNumber (rev acc))) (f :: st'))
        as [[m' st'']|] eqn:Hd; [|discriminate].
      apply step_after_white_space in Hstep; [|exact Hc]. subst s1.
      unfold deliver in Hd. case_hyp Hd; injection Hd as <- <-; discriminate Hfin.
  - (* InLiteral *)
    destruct Hs as [Hrest _].
    destruct rest as [|x rest']; [discriminate|].
    inversion Hrest as [|? ? Hx Hrest']; subst.
    destruct (N.eqb_spec c x) as [->|]; [congruence | discriminate].
Qed.

Lemma white_space_run_finish (ws : jsstring) :
  forall s s1 v,
    state_ok s -> Forall (fun c => is_white_space c = true) ws ->
    run s ws = Some s1 -> finish s1 = Some v -> finish s = Some v.
Proof.
  induction ws as [|c ws IH]; intros s s1 v Hs Hws Hrun Hfin; cbn [run] in Hrun.
  - injection Hrun as <-. exact Hfin.
  - inversion Hws as [|? ? Hc Hws']; subst.
    destruct (step s c) as [s2|] eqn:E; [|discriminate].
    eapply white_space_step_finish; [exact Hs | exact Hc | exact E |].
    eapply IH; [eapply step_ok; eassumption | exact Hws' | exact Hrun | exact Hfin].
Qed.

Lemma trimEnd_split (s : jsstring) :
  exists ws, s = trimEnd s ++ ws /\ Forall (fun c => is_white_space c = true) ws.
Proof.
  induction s as [|c s (ws & Hs & Hws)].
  - exists []. split; [reflexivity | constructor].
  - cbn [trimEnd]. destruct (trimEnd s) as [|x r] eqn:E.
    + cbn [app] in Hs. subst s.
      destruct (is_white_space c) eqn:Hc.
      * exists (c :: ws). split; [reflexivity | constructor; assumption].
      * exists ws. split; [reflexivity | assumption].
    + exists ws. split; [|assumption]. rewrite Hs at 1. reflexivity.
Qed.

Lemma parse_trimEnd (text : jsstring) (v : jsval) :
  parse text = Return v -> parse (trimEnd text) = Return v.
Proof.
  intros H. apply parse_Return in H. destruct H as (s1 & Hrun & Hfin).
  destruct (trimEnd_split text) as (ws & Hsplit & Hws).
  rewrite Hsplit, run_app in Hrun.
  destruct (run init (trimEnd text)) as [s|] eqn:E; [|discriminate].
  apply parse_Return. exists s. split; [exact E|].
  eapply white_space_run_finish; [|exact Hws | exact Hrun | exact Hfin].
  eapply run_ok; [exact init_ok | exact E].
Qed.

Lemma step_init_white_space c s1 :
  is_white_space c = true -> step init c = Some s1 -> s1 = init.
Proof.
  intros Hc H. apply white_space_range in Hc. unfold init in *. cbn [step] in H.
  case_hyp H; [injection H as <-; reflexivity|].
  apply start_value_range in H. lia.
Qed.

Lemma parse_trimStart (text : jsstring) (v : jsval) :
  parse text = Return v -> parse (trimStart text) = Return v.
Proof.
  induction text as [|c text IH]; intros H; [exact H|].
  cbn [trimStart]. destruct (is_white_space c) eqn:Hc; [|exact H].
  apply IH. apply parse_Return in H. destruct H as (s & Hrun & Hfin).
  cbn [run] in Hrun. destruct (step init c) as [s1|] eqn:E; [|discriminate].
  apply step_init_white_space in E; [|exact Hc]. subst s1.
  apply parse_Return. exists s. split; assumption.
Qed.

(** Trimming a text that parses leaves a text that parses to the same
    value. *)
Lemma parse_trim (text : jsstring) (v : jsval) :
  parse text = Return v -> parse (trim text) = Return v.
Proof.
  intros H. unfold trim. apply parse_trimEnd, parse_trimStart. exact H.
Qed.

End Facts.
End TrimFacts.

(* ===================================================================== *)
(** ** Replies returned as they are *)
(* ===================================================================== *)

Section PassThrough.
Context {RT : Runtime}.

(** C7. When the text of the reply is a JSON text that denotes the value
    [v], [analyzeVehicleByVin] and [analyzeVehicleDetails] return [v] itself:
    every field, declared in the schema or not, of the expected type or not,
    is there as the oracle gave it. *)
Theorem parsed_reply_returned_unchanged (w : world) (t : jsstring) (v : jsval)
    (log : list request) :
  has_key w -> replies w (Some t) -> JSON.parse t = Return v ->
  (forall vin, fst (analyzeVehicleByVin vin w log) = Return v) /\
  (forall img brand, fst (analyzeVehicleDetails img brand w log) = Return v).
Proof.
  intros Hkey Hrep Hparse.
  pose proof (TrimFacts.parse_trim t v Hparse) as Htrim.
  destruct t as [|c t]; [discriminate Hparse|].
  split; intros.
  - rewrite (analyzeVehicleByVin_run w (Some (c :: t))) by assumption. exact Htrim.
  - rewrite (analyzeVehicleDetails_run w (Some (c :: t))) by assumption. exact Htrim.
Qed.

End PassThrough.

Lemma parsed_reply_returned_unchanged_witness :
  fst (analyzeVehicleByVin (RT := LiteralRuntime) (lit "UU1")
         (constant_world (Some sample_reply)) []) =
  Return (JObj [ (lit "brand", JStr (lit "Dacia"));
                 (lit "model", JNum (RT := LiteralRuntime) (lit "1310"));
                 (lit "extra", JArr [JBool true; JNull; JObj []]) ]).
Proof.
  refine (proj1 (parsed_reply_returned_unchanged (RT := LiteralRuntime)
                   (constant_world (Some sample_reply)) sample_reply _ []
                   (constant_world_has_key _) (constant_world_replies _) _) (lit "UU1")).
  vm_compute. reflexivity.
Defined.

(* ===================================================================== *)
(** ** The VIN of the record *)
(* ===================================================================== *)

Lemma upper_alnum_range (c : code_unit) :
  is_upper_alnum c = true -> 48 <= c /\ c <= 90.
Proof.
  unfold is_upper_alnum, is_upper, is_digit. intros H. to_props; lia.
Qed.

Lemma trimEnd_last (m : jsstring) (d : code_unit) :
  is_white_space d = false -> trimEnd (m ++ [d]) = m ++ [d].
Proof.
  intros Hd. induction m as [|a m IH]; cbn [app trimEnd].
  - rewrite Hd. reflexivity.
  - rewrite IH. destruct m; reflexivity.
Qed.

Lemma trim_fixed (c d : code_unit) (m : jsstring) :
  is_white_space c = false -> is_white_space d = false ->
  trim (c :: m ++ [d]) = c :: m ++ [d].
Proof.
  intros Hc Hd. unfold trim. cbn [trimStart]. rewrite Hc.
  apply (trimEnd_last (c :: m) d Hd).
Qed.

Section VinFacts.
Context {RT : Runtime}.
Import JSON JSONFacts.

Lemma run_upper_alnum (s : jsstring) :
  forall k acc st,
    Forall (fun c => is_upper_alnum c = true) s ->
    run (InString k acc, st) s = Some (InString k (rev s ++ acc), st).
Proof.
  induction s as [|c s IH]; intros k acc st H; [reflexivity|].
  inversion H as [|? ? Hc Hs]; subst. apply upper_alnum_range in Hc.
  cbn [run step].
  replace (c =? 34) with false by (symmetry; apply N.eqb_neq; lia).
  replace (c =? 92) with false by (symmetry; apply N.eqb_neq; lia).
  replace (c <? 32) with false by (symmetry; apply N.ltb_ge; lia).
  rewrite IH by exact Hs. cbn [rev]. rewrite <- app_assoc. reflexivity.
Qed.

Lemma run_vin_reply_prefix :
  run init vin_reply_prefix = Some (InString false [], [FObj [] (Some (lit "vin"))]).
Proof. vm_compute. reflexivity. Qed.

Lemma run_close_string_object (acc k : jsstring) :
  run (InString false acc, [FObj [] (Some k)]) [34; 125] =
  Some (Done (JObj [(k, JStr (rev acc))]), []).
Proof. reflexivity. Qed.

Lemma parse_vin_reply (s : jsstring) :
  Forall (fun c => is_upper_alnum c = true) s ->
  parse (vin_reply s) = Return (JObj [(lit "vin", JStr s)]).
Proof.
  intros H. apply parse_Return.
  exists (Done (JObj [(lit "vin", JStr s)]), []). split; [|reflexivity].
  unfold vin_reply. rewrite run_app, run_vin_reply_prefix.
  rewrite run_app, (run_upper_alnum s) by exact H.
  change (dq ++ lit "}") with [34; 125].
  rewrite run_close_string_object, app_nil_r, rev_involutive. reflexivity.
Qed.

Lemma trim_vin_reply (s : jsstring) : trim (vin_reply s) = vin_reply s.
Proof.
  assert (E : vin_reply s = 123 :: ([34; 118; 105; 110; 34; 58; 34] ++ s ++ [34]) ++ [125]).
  { unfold vin_reply.
    change vin_reply_prefix with (123 :: [34; 118; 105; 110; 34; 58; 34]).
    change (dq ++ lit "}") with ([34] ++ [125]).
    cbn [app]. rewrite <- app_assoc. reflexivity. }
  rewrite E. apply trim_fixed; reflexivity.
Qed.

Lemma String_of_property_absent props k d :
  own_property (lit k) props = None ->
  String_of_property (JObj props) k d = Return (lit d).
Proof.
  intros H. unfold String_of_property, Get. rewrite H. reflexivity.
Qed.

Lemma String_of_property_string props k d s :
  own_property (lit k) props = Some (JStr s) ->
  String_of_property (JObj props) k d =
  Return (match s with [] => lit d | _ => s end).
Proof.
  intros H. unfold String_of_property, Get. rewrite H.
  destruct s; reflexivity.
Qed.

Lemma vin_only_properties (v : jsval) :
  own_property (lit "vin") [(lit "vin", v)] = Some v /\
  own_property (lit "brand") [(lit "vin", v)] = None /\
  own_property (lit "model") [(lit "vin", v)] = None /\
  own_property (lit "deductionReasoning") [(lit "vin", v)] = None /\
  own_property (lit "yearOfManufacture") [(lit "vin", v)] = None /\
  own_property (lit "licensePlate") [(lit "vin", v)] = None /\
  own_property (lit "registrationYear") [(lit "vin", v)] = None.
Proof. repeat split; vm_compute; reflexivity. Qed.

Lemma normalize_vin_only (s : jsstring) :
  Forall (fun c => is_upper_alnum c = true) s ->
  normalize (JObj [(lit "vin", JStr s)]) =
  Return (vehicle_record s
            (toUpperCase unicode_upper (lit "Inconnu"))
            (toUpperCase unicode_upper (lit "ANALYSE..."))
            (JStr []) (lit "N/A") (lit "") (lit "")).
Proof.
  intros H.
  destruct (vin_only_properties (JStr s)) as (P1 & P2 & P3 & P4 & P5 & P6 & P7).
  rewrite (normalize_returns _ s (lit "Inconnu") (lit "ANALYSE...") JUndefined
             (lit "N/A") (lit "") (lit "")).
  - rewrite (stripped_vin_fixed unicode_upper s H). reflexivity.
  - rewrite (String_of_property_string _ _ _ s P1). destruct s; reflexivity.
  - apply String_of_property_absent. exact P2.
  - apply String_of_property_absent. exact P3.
  - unfold Get. rewrite P4. reflexivity.
  - apply String_of_property_absent. exact P5.
  - apply String_of_property_absent. exact P6.
  - apply String_of_property_absent. exact P7.
Qed.

(** C2. Whatever the image, the mode and the reply, the [vin] of a record
    [analyzeVehicleCritical] returns is a string of uppercase letters and
    digits; its length is not constrained: every such string, of any length,
    is returned as it is when the reply holds it. *)
Theorem vin_uppercase_alphanumeric (w : world) (img : jsstring) (mode : option ScanType)
    (log : list request) :
  has_key w ->
  (forall r, fst (analyzeVehicleCritical img mode w log) = Return r ->
     exists s, field "vin" r = Some (JStr s) /\
               Forall (fun c => is_upper_alnum c = true) s) /\
  (forall s, Forall (fun c => is_upper_alnum c = true) s ->
     replies w (Some (vin_reply s)) ->
     exists r, fst (analyzeVehicleCritical img mode w log) = Return r /\
               field "vin" r = Some (JStr s)).
Proof.
  intros Hkey. split.
  - intros r Hr.
    destruct (analyzeVehicleCritical_returns w img mode log r Hkey Hr)
      as (t & raw & _ & _ & Hn).
    apply normalize_inv in Hn.
    destruct Hn as (vin & brand & model & dr & year & plate & reg & Hn).
    destruct Hn as (_ & _ & _ & _ & _ & _ & _ & ->).
    eexists. split.
    + apply vehicle_record_fields.
    + apply stripped_vin_upper_alnum.
  - intros s Hs Hrep.
    rewrite (analyzeVehicleCritical_parsed w (vin_reply s) (JObj [(lit "vin", JStr s)]))
      by (try assumption; rewrite trim_vin_reply; apply parse_vin_reply; exact Hs).
    rewrite (normalize_vin_only s Hs).
    eexists. split; [reflexivity|]. apply vehicle_record_fields.
Qed.

End VinFacts.

Lemma vin_uppercase_alphanumeric_witness :
  exists r,
    fst (analyzeVehicleCritical (RT := LiteralRuntime) [65] None
           (constant_world (Some (vin_reply (lit "VF1")))) []) = Return r /\
    field "vin" r = Some (JStr (lit "VF1")).
Proof.
  refine (proj2 (vin_uppercase_alphanumeric (RT := LiteralRuntime)
                   (constant_world (Some (vin_reply (lit "VF1")))) [65] None []
                   (constant_world_has_key _)) (lit "VF1") _ (constant_world_replies _)).
  vm_compute. repeat constructor.
Defined.

(* ===================================================================== *)
(** ** The fallbacks of the record *)
(* ===================================================================== *)

Lemma empty_object_run :
  JSON.parse (RT := LiteralRuntime) (trim (lit "{}")) = Return (JObj []) /\
  fst (analyzeVehicleCritical (RT := LiteralRuntime) [65] None
         (constant_world (Some (lit "{}"))) []) = Return empty_object_record.
Proof. split; vm_compute; reflexivity. Defined.

Section Fallbacks.
Context {RT : Runtime}.

Lemma toUpperCase_Inconnu :
  toUpperCase unicode_upper (lit "Inconnu") = lit "INCONNU".
Proof.
  rewrite toUpperCase_ascii; [vm_compute; reflexivity|].
  vm_compute. repeat constructor.
Qed.

(** C4, as the code has it. In a record [analyzeVehicleCritical] returns,
    [yearOfManufacture], [licensePlate] and [registrationYear] are strings,
    each the [String] of the field of the parsed reply or of its fallback;
    when the field is missing from the parsed reply, [licensePlate] and
    [registrationYear] are the empty string and [yearOfManufacture] is
    N/A. *)
Theorem year_and_plate_coerced (w : world) (t : jsstring) (raw r : jsval)
    (img : jsstring) (mode : option ScanType) (log : list request) :
  has_key w -> replies w (Some t) -> JSON.parse (trim t) = Return raw ->
  fst (analyzeVehicleCritical img mode w log) = Return r ->
  (exists year plate reg,
      String_of_property raw "yearOfManufacture" "N/A" = Return year /\
      String_of_property raw "licensePlate" "" = Return plate /\
      String_of_property raw "registrationYear" "" = Return reg /\
      field "yearOfManufacture" r = Some (JStr year) /\
      field "licensePlate" r = Some (JStr plate) /\
      field "registrationYear" r = Some (JStr reg)) /\
  (Get raw (lit "licensePlate") = Return JUndefined ->
   field "licensePlate" r = Some (JStr [])) /\
  (Get raw (lit "registrationYear") = Return JUndefined ->
   field "registrationYear" r = Some (JStr [])) /\
  (Get raw (lit "yearOfManufacture") = Return JUndefined ->
   field "yearOfManufacture" r = Some (JStr (lit "N/A"))).
Proof.
  intros Hkey Hrep Hparse Hr.
  rewrite (analyzeVehicleCritical_parsed w t raw) in Hr by assumption.
  apply normalize_inv in Hr.
  destruct Hr as (vin & brand & model & dr & year & plate & reg & Hr).
  destruct Hr as (_ & _ & _ & _ & Hyear & Hplate & Hreg & ->).
  match goal with
  | |- context [field _ ?rec] =>
      destruct (vehicle_record_fields
                  (toUpperCase unicode_upper (replace_not_AZ09_gi unicode_upper vin))
                  (toUpperCase unicode_upper brand) (toUpperCase unicode_upper model)
                  (or_else dr (JStr [])) year plate reg)
        as (_ & _ & _ & _ & Fyear & Fplate & Freg)
  end.
  cbv zeta in Fyear, Fplate, Freg.
  split; [exists year, plate, reg; repeat split; assumption|].
  split; [|split].
  - intros Hmiss. rewrite Fplate.
    rewrite (String_of_property_missing _ _ _ _ Hplate Hmiss). reflexivity.
  - intros Hmiss. rewrite Freg.
    rewrite (String_of_property_missing _ _ _ _ Hreg Hmiss). reflexivity.
  - intros Hmiss. rewrite Fyear.
    rewrite (String_of_property_missing _ _ _ _ Hyear Hmiss). reflexivity.
Qed.

(** C5, as the code has it. When the [brand] of the parsed reply is
    missing or empty, the [brand] of the record [analyzeVehicleCritical]
    returns is the placeholder in uppercase, INCONNU. *)
Theorem brand_placeholder (w : world) (t : jsstring) (raw r : jsval)
    (img : jsstring) (mode : option ScanType) (log : list request) :
  has_key w -> replies w (Some t) -> JSON.parse (trim t) = Return raw ->
  Get raw (lit "brand") = Return JUndefined \/ Get raw (lit "brand") = Return (JStr []) ->
  fst (analyzeVehicleCritical img mode w log) = Return r ->
  field "brand" r = Some (JStr (lit "INCONNU")).
Proof.
  intros Hkey Hrep Hparse Hbrand Hr.
  rewrite (analyzeVehicleCritical_parsed w t raw) in Hr by assumption.
  apply normalize_inv in Hr.
  destruct Hr as (vin & brand & model & dr & year & plate & reg & Hr).
  destruct Hr as (_ & Hb & _ & _ & _ & _ & _ & ->).
  assert (brand = lit "Inconnu") as ->.
  { destruct Hbrand as [Hm | Hm].
    - exact (String_of_property_missing _ _ _ _ Hb Hm).
    - exact (String_of_property_empty _ _ _ _ Hb Hm). }
  rewrite toUpperCase_Inconnu. apply vehicle_record_fields.
Qed.

End Fallbacks.

Lemma year_and_plate_coerced_witness :
  field "yearOfManufacture" empty_object_record = Some (JStr (lit "N/A")).
Proof.
  refine (proj2 (proj2 (proj2
    (year_and_plate_coerced (RT := LiteralRuntime) (constant_world (Some (lit "{}")))
       (lit "{}") (JObj []) empty_object_record [65] None []
       (constant_world_has_key _) (constant_world_replies _)
       (proj1 empty_object_run) (proj2 empty_object_run)))) _).
  vm_compute. reflexivity.
Defined.

(** C4, as the specification words it, fails for [yearOfManufacture]: the
    reply [{}] has no such field, and the record holds N/A, not the empty
    string. *)
Lemma year_and_plate_counterexample :
  JSON.parse (RT := LiteralRuntime) (trim (lit "{}")) = Return (JObj []) /\
  Get (RT := LiteralRuntime) (JObj []) (lit "yearOfManufacture") = Return JUndefined /\
  fst (analyzeVehicleCritical (RT := LiteralRuntime) [65] None
         (constant_world (Some (lit "{}"))) []) = Return empty_object_record /\
  field "yearOfManufacture" empty_object_record = Some (JStr (lit "N/A")) /\
  lit "N/A" <> [].
Proof.
  repeat split; try (vm_compute; reflexivity). vm_compute. discriminate.
Qed.

Lemma brand_placeholder_witness :
  field "brand" empty_object_record = Some (JStr (lit "INCONNU")).
Proof.
  refine (brand_placeholder (RT := LiteralRuntime) (constant_world (Some (lit "{}")))
            (lit "{}") (JObj []) empty_object_record [65] None []
            (constant_world_has_key _) (constant_world_replies _)
            (proj1 empty_object_run) _ (proj2 empty_object_run)).
  left. vm_compute. reflexivity.
Defined.

(** C5, as the specification words it, fails: for the reply [{}], which
    has no brand, the record holds INCONNU and not Inconnu. *)
Lemma brand_placeholder_counterexample :
  Get (RT := LiteralRuntime) (JObj []) (lit "brand") = Return JUndefined /\
  fst (analyzeVehicleCritical (RT := LiteralRuntime) [65] None
         (constant_world (Some (lit "{}"))) []) = Return empty_object_record /\
  field "brand" empty_object_record = Some (JStr (lit "INCONNU")) /\
  lit "INCONNU" <> lit "Inconnu".
Proof.
  repeat split; try (vm_compute; reflexivity). vm_compute. discriminate.
Qed.

(* ===================================================================== *)
(** ** The record is never partial *)
(* ===================================================================== *)

Section NeverPartial.
Context {RT : Runtime}.

Lemma falsy_converts (v : jsval) : ToBoolean v = false -> converts v.
Proof.
  unfold converts. destruct v as [| |b|n|s|items|props]; cbn [ToBoolean ToString];
    intros H; try discriminate; eauto.
  destruct b; eauto.
Qed.

Lemma String_of_property_converts raw k d :
  (exists s, String_of_property raw k d = Return s) <->
  (exists v, Get raw (lit k) = Return v /\ converts v).
Proof.
  split.
  - intros (s & Hs). apply String_of_property_inv in Hs.
    destruct Hs as (v & Hv & Hs). exists v. split; [exact Hv|].
    unfold or_else in Hs. destruct (ToBoolean v) eqn:E.
    + exists s. exact Hs.
    + apply falsy_converts. exact E.
  - intros (v & Hv & (s & Hs)). unfold String_of_property. rewrite Hv.
    cbn [outcome_bind]. unfold or_else. destruct (ToBoolean v).
    + exists s. exact Hs.
    + exists (lit d). reflexivity.
Qed.

Lemma Get_total (raw : jsval) (k : jsstring) :
  raw <> JNull -> raw <> JUndefined -> exists v, Get raw k = Return v.
Proof.
  intros H1 H2. destruct raw; cbn [Get]; eauto; congruence.
Qed.

Lemma Get_Return_not_null (raw : jsval) (k : jsstring) (v : jsval) :
  Get raw k = Return v -> raw <> JNull.
Proof. intros H ->. discriminate H. Qed.

(** [normalize] returns exactly on the values other than [null] whose six
    coerced fields [String] can convert. *)
Lemma normalize_returns_iff (raw : jsval) :
  raw <> JUndefined ->
  (exists r, normalize raw = Return r) <->
  (raw <> JNull /\
   forall k v, In k coerced_fields -> Get raw (lit k) = Return v -> converts v).
Proof.
  intros Hdef. split.
  - intros (r & Hr). apply normalize_inv in Hr.
    destruct Hr as (vin & brand & model & dr & year & plate & reg & Hr).
    destruct Hr as (H1 & H2 & H3 & H4 & H5 & H6 & H7 & _).
    split; [exact (Get_Return_not_null _ _ _ H4)|].
    intros k v Hk Hv.
    assert (Hconv : forall d s, String_of_property raw k d = Return s -> converts v).
    { intros d s Hs.
      destruct (proj1 (String_of_property_converts raw k d) (ex_intro _ s Hs))
        as (v' & Hv' & Hc).
      rewrite Hv in Hv'. injection Hv' as <-. exact Hc. }
    cbn [coerced_fields In] in Hk.
    destruct Hk as [<- | [<- | [<- | [<- | [<- | [<- | []]]]]]]; eapply Hconv; eassumption.
  - intros (Hnull & Hall).
    assert (Hs : forall k d, In k coerced_fields ->
                             exists s, String_of_property raw k d = Return s).
    { intros k d Hk. apply String_of_property_converts.
      destruct (Get_total raw (lit k) Hnull Hdef) as (v & Hv).
      exists v. split; [exact Hv | exact (Hall k v Hk Hv)]. }
    destruct (Hs "vin"%string ""%string) as (vin & H1); [cbn; tauto|].
    destruct (Hs "brand"%string "Inconnu"%string) as (brand & H2); [cbn; tauto|].
    destruct (Hs "model"%string "ANALYSE..."%string) as (model & H3); [cbn; tauto|].
    destruct (Get_total raw (lit "deductionReasoning") Hnull Hdef) as (dr & H4).
    destruct (Hs "yearOfManufacture"%string "N/A"%string) as (year & H5); [cbn; tauto|].
    destruct (Hs "licensePlate"%string ""%string) as (plate & H6); [cbn; tauto|].
    destruct (Hs "registrationYear"%string ""%string) as (reg & H7); [cbn; tauto|].
    eexists. apply (normalize_returns raw vin brand model dr year plate reg);
      assumption.
Qed.

(** C10, as the code has it. A record [analyzeVehicleCritical] returns is
    never partial: it has the seven fields, all strings but possibly
    [deductionReasoning]. The operation returns exactly when the text of
    the reply is not empty and parses, once trimmed, as a JSON value that is
    not [null] and whose six coerced fields [String] can convert; a reply
    that parses does not suffice. *)
Theorem record_never_partial (w : world) (t : jsstring) (img : jsstring)
    (mode : option ScanType) (log : list request) :
  has_key w -> replies w (Some t) ->
  (forall r, fst (analyzeVehicleCritical img mode w log) = Return r ->
     exists vin brand model deductionReasoning yearOfManufacture licensePlate
            registrationYear,
       r = vehicle_record vin brand model deductionReasoning yearOfManufacture
             licensePlate registrationYear) /\
  ((exists r, fst (analyzeVehicleCritical img mode w log) = Return r) <->
   (t <> [] /\
    exists raw, JSON.parse (trim t) = Return raw /\ raw <> JNull /\
      forall k v, In k coerced_fields -> Get raw (lit k) = Return v -> converts v)).
Proof.
  intros Hkey Hrep. split.
  - intros r Hr.
    destruct (analyzeVehicleCritical_returns w img mode log r Hkey Hr)
      as (t' & raw & _ & _ & Hn).
    apply normalize_inv in Hn.
    destruct Hn as (vin & brand & model & dr & year & plate & reg & Hn).
    destruct Hn as (_ & _ & _ & _ & _ & _ & _ & ->).
    eexists _, _, _, _, _, _, _. reflexivity.
  - rewrite (analyzeVehicleCritical_run w (Some t)) by assumption. split.
    + intros (r & Hr). destruct t as [|c t]; [discriminate Hr|].
      split; [discriminate|].
      destruct (JSON.parse (trim (c :: t))) as [raw|e] eqn:E; [|discriminate Hr].
      cbn [outcome_bind] in Hr. exists raw. split; [reflexivity|].
      apply normalize_returns_iff.
      * exact (JSONFacts.parse_defined _ _ E).
      * exists r. exact Hr.
    + intros (Hne & raw & Hparse & Hnull & Hall).
      destruct t as [|c t]; [congruence|].
      rewrite Hparse. cbn [outcome_bind].
      apply normalize_returns_iff.
      * exact (JSONFacts.parse_defined _ _ Hparse).
      * split; assumption.
Qed.

End NeverPartial.

Lemma record_never_partial_witness :
  exists vin brand model deductionReasoning yearOfManufacture licensePlate registrationYear,
    empty_object_record =
    vehicle_record vin brand model deductionReasoning yearOfManufacture licensePlate
      registrationYear.
Proof.
  exact (proj1 (record_never_partial (RT := LiteralRuntime)
                  (constant_world (Some (lit "{}"))) (lit "{}") [65] None []
                  (constant_world_has_key _) (constant_world_replies _))
           empty_object_record (proj2 empty_object_run)).
Defined.

(** C10, as the specification words it, fails: the reply [null] is not
    empty and parses as JSON, and the operation does not return a record but
    throws a TypeError on the first field it reads. *)
Lemma record_never_partial_counterexample :
  lit "null" <> [] /\
  JSON.parse (RT := LiteralRuntime) (trim (lit "null")) = Return JNull /\
  fst (analyzeVehicleCritical (RT := LiteralRuntime) [65] None
         (constant_world (Some (lit "null"))) []) = Throw TypeError.
Proof.
  split; [vm_compute; discriminate|]. split; vm_compute; reflexivity.
Qed.

(* ===================================================================== *)
(** ** One request per call *)
(* ===================================================================== *)

(** After the client is there, an operation that sends [r] and goes on
    without sending leaves [log ++ [r]]. *)
Lemma bind_send_log {A : Type} (ai : GoogleGenAI) (r : request) (k : response -> M A)
    (w : world) (log : list request) :
  (forall a log', snd (k a w log') = log') ->
  snd (bind (send ai r) k w log) = log ++ [r].
Proof.
  intros Hk. unfold bind, send. destruct (oracle w r) as [a|e]; [apply Hk | reflexivity].
Qed.

Ltac enter_adapter Hkey :=
  let ai := fresh "ai" in
  let Hai := fresh "Hai" in
  cbv zeta;
  match goal with
  | |- context [bind getAIClient ?k ?w ?log] =>
      destruct (getAIClient_present w log Hkey) as [ai Hai];
      rewrite (bind_return getAIClient k w log ai log Hai)
  end;
  cbv zeta; unfold generateContent, sendMessage.

Section OneRequest.
Context {RT : Runtime}.

Lemma analyzeVehicleByVin_log w vin log :
  has_key w ->
  exists r, is_generateContent (lit "gemini-3-flash-preview") r /\
            snd (analyzeVehicleByVin vin w log) = log ++ [r].
Proof.
  intros Hkey. unfold analyzeVehicleByVin. enter_adapter Hkey.
  eexists. split; [eexists _, _; reflexivity|].
  apply bind_send_log. intros [[[|c t]|]] log'; reflexivity.
Qed.

Lemma estimateMarketValue_log w vehicle log :
  has_key w ->
  exists r, is_generateContent (lit "gemini-3-pro-preview") r /\
            snd (estimateMarketValue vehicle w log) = log ++ [r].
Proof.
  intros Hkey. unfold estimateMarketValue. enter_adapter Hkey.
  eexists. split; [eexists _, _; reflexivity|].
  apply bind_send_log. intros [[[|c t]|]] log'; reflexivity.
Qed.

Lemma chatWithExpert_log w history question log :
  has_key w ->
  exists model config,
    snd (chatWithExpert history question w log) =
    log ++ [sendMessage_request model config history question].
Proof.
  intros Hkey. unfold chatWithExpert. enter_adapter Hkey.
  eexists _, _. apply bind_send_log. intros a log'. reflexivity.
Qed.

(** X1. With a key, each operation sends exactly one request, whatever
    the oracle answers or rejects with: the log grows by one entry, a
    [generateContent] on the flash model for the three decoding operations,
    on the pro model for the report and the estimate, and for the chat one
    [sendMessage] that carries the history and the question as given. *)
Theorem one_request_per_call (w : world) (log : list request) :
  has_key w ->
  (forall vin, exists r, is_generateContent (lit "gemini-3-flash-preview") r /\
      snd (analyzeVehicleByVin vin w log) = log ++ [r]) /\
  (forall img mode, exists r, is_generateContent (lit "gemini-3-flash-preview") r /\
      snd (analyzeVehicleCritical img mode w log) = log ++ [r]) /\
  (forall img brand, exists r, is_generateContent (lit "gemini-3-flash-preview") r /\
      snd (analyzeVehicleDetails img brand w log) = log ++ [r]) /\
  (forall vin, exists r, is_generateContent (lit "gemini-3-pro-preview") r /\
      snd (getVinAnalysisReport vin w log) = log ++ [r]) /\
  (forall vehicle, exists r, is_generateContent (lit "gemini-3-pro-preview") r /\
      snd (estimateMarketValue vehicle w log) = log ++ [r]) /\
  (forall history question, exists model config,
      snd (chatWithExpert history question w log) =
      log ++ [sendMessage_request model config history question]).
Proof.
  intros Hkey. repeat split; intros.
  - apply analyzeVehicleByVin_log. exact Hkey.
  - unfold analyzeVehicleCritical. enter_adapter Hkey.
    eexists. split; [eexists _, _; reflexivity|].
    apply bind_send_log. intros [[[|c t]|]] log'; try reflexivity.
    cbn [text]. unfold bind, lift. destruct (JSON.parse (trim (c :: t))); reflexivity.
  - unfold analyzeVehicleDetails. enter_adapter Hkey.
    eexists. split; [eexists _, _; reflexivity|].
    apply bind_send_log. intros [[[|c t]|]] log'; reflexivity.
  - rewrite getVinAnalysisReport_log by exact Hkey.
    eexists. split; [eexists _, _; reflexivity | reflexivity].
  - apply estimateMarketValue_log. exact Hkey.
  - apply chatWithExpert_log. exact Hkey.
Qed.

(** X2. With a key, when the oracle's client rejects the request, each of
    the six operations throws what the client rejected with: nothing is
    caught, retried or replaced by a fallback. *)
Theorem oracle_failure_propagates (w : world) (e : exn) (log : list request) :
  has_key w -> rejects w e ->
  (forall vin, fst (analyzeVehicleByVin vin w log) = Throw e) /\
  (forall img mode, fst (analyzeVehicleCritical img mode w log) = Throw e) /\
  (forall img brand, fst (analyzeVehicleDetails img brand w log) = Throw e) /\
  (forall vin, fst (getVinAnalysisReport vin w log) = Throw e) /\
  (forall history question, fst (chatWithExpert history question w log) = Throw e) /\
  (forall vehicle, fst (estimateMarketValue vehicle w log) = Throw e).
Proof.
  intros Hkey Hrej. repeat split; intros;
    unfold analyzeVehicleByVin, analyzeVehicleCritical, analyzeVehicleDetails,
      getVinAnalysisReport, chatWithExpert, estimateMarketValue;
    enter_adapter Hkey; unfold bind, send; rewrite Hrej; reflexivity.
Qed.

End OneRequest.

Lemma one_request_per_call_witness :
  exists model config,
    snd (chatWithExpert [] (lit "Bonjour") (rejecting_world SyntaxError) []) =
    [] ++ [sendMessage_request model config [] (lit "Bonjour")].
Proof.
  exact (proj2 (proj2 (proj2 (proj2 (proj2
    (one_request_per_call (RT := LiteralRuntime) (rejecting_world SyntaxError) []
       (ex_intro _ 107 (ex_intro _ [101; 121] eq_refl))))))) [] (lit "Bonjour")).
Defined.

Lemma oracle_failure_propagates_witness :
  fst (estimateMarketValue (RT := LiteralRuntime)
         {| va_brand := None; va_model := None; va_yearOfManufacture := None;
            va_registrationYear := None; va_motorization := None; va_fuelType := None;
            va_inventoryNotes := None |}
         (rejecting_world (OracleFailure (lit "503"))) []) =
  Throw (OracleFailure (lit "503")).
Proof.
  exact (proj2 (proj2 (proj2 (proj2 (proj2
    (oracle_failure_propagates (RT := LiteralRuntime)
       (rejecting_world (OracleFailure (lit "503"))) (OracleFailure (lit "503")) []
       (ex_intro _ 107 (ex_intro _ [101; 121] eq_refl)) (fun _ => eq_refl))))))
    {| va_brand := None; va_model := None; va_yearOfManufacture := None;
       va_registrationYear := None; va_motorization := None; va_fuelType := None;
       va_inventoryNotes := None |}).
Defined.

(* ===================================================================== *)
(** ** Replies that are not JSON *)
(* ===================================================================== *)

Lemma trimStart_head (t : jsstring) (c : code_unit) (r : jsstring) :
  trimStart t = c :: r -> is_white_space c = false.
Proof.
  induction t as [|a t IH]; cbn [trimStart]; [discriminate|].
  destruct (is_white_space a) eqn:Ha; [exact IH|].
  intros H. injection H as <- _. exact Ha.
Qed.

Lemma trimEnd_head (c d : code_unit) (r r' : jsstring) :
  trimEnd (c :: r) = d :: r' -> d = c.
Proof.
  cbn [trimEnd]. destruct (trimEnd r); [destruct (is_white_space c)|];
    intros H; [discriminate | |]; injection H as -> _; reflexivity.
Qed.

Lemma trim_head (t : jsstring) (c : code_unit) (r : jsstring) :
  trim t = c :: r -> is_white_space c = false.
Proof.
  unfold trim. destruct (trimStart t) as [|a u] eqn:E; [discriminate|].
  intros H. apply trimEnd_head in H. subst c. exact (trimStart_head t a u E).
Qed.

Section NotJSON.
Context {RT : Runtime}.

Lemma start_value_None (c : code_unit) (st : list JSON.frame) :
  starts_json_value c = false -> JSON.start_value c st = None.
Proof.
  unfold starts_json_value, JSON.start_value. intros H.
  repeat (apply orb_false_iff in H; destruct H as [H ?]).
  assert (H48 : (c =? 48) = false).
  { apply N.eqb_neq. intros ->. discriminate. }
  repeat match goal with E : _ = false |- _ => rewrite E; clear E end.
  reflexivity.
Qed.

Lemma parse_bad_start (c : code_unit) (r : jsstring) :
  is_white_space c = false -> starts_json_value c = false ->
  JSON.parse (c :: r) = Throw SyntaxError.
Proof.
  intros Hws Hstart. unfold JSON.parse, JSON.init. cbn [JSON.run JSON.step].
  destruct (JSON.is_ws c) eqn:E.
  - apply json_ws_is_white_space in E. congruence.
  - rewrite (start_value_None c [] Hstart). reflexivity.
Qed.

(** X3. When the trimmed text of the reply starts with a character that
    no JSON value starts with (a reply wrapped in a Markdown fence, a
    sentence), the four operations that parse the reply throw the
    SyntaxError of [JSON.parse]: the adapter looks for no JSON inside the
    text. *)
Theorem reply_not_starting_as_json_throws (w : world) (t : jsstring) (c : code_unit)
    (r : jsstring) (log : list request) :
  has_key w -> replies w (Some t) -> trim t = c :: r -> starts_json_value c = false ->
  (forall vin, fst (analyzeVehicleByVin vin w log) = Throw SyntaxError) /\
  (forall img mode, fst (analyzeVehicleCritical img mode w log) = Throw SyntaxError) /\
  (forall img brand, fst (analyzeVehicleDetails img brand w log) = Throw SyntaxError) /\
  (forall vehicle, fst (estimateMarketValue vehicle w log) = Throw SyntaxError).
Proof.
  intros Hkey Hrep Htrim Hstart.
  assert (Hparse : JSON.parse (trim t) = Throw SyntaxError).
  { rewrite Htrim. apply parse_bad_start; [|exact Hstart].
    exact (trim_head t c r Htrim). }
  destruct t as [|a t]; [discriminate Htrim|].
  repeat split; intros.
  - rewrite (analyzeVehicleByVin_run w (Some (a :: t))) by assumption. exact Hparse.
  - rewrite (analyzeVehicleCritical_run w (Some (a :: t))) by assumption.
    rewrite Hparse. reflexivity.
  - rewrite (analyzeVehicleDetails_run w (Some (a :: t))) by assumption. exact Hparse.
  - rewrite (estimateMarketValue_run w (Some (a :: t))) by assumption. exact Hparse.
Qed.

End NotJSON.

Lemma reply_not_starting_as_json_witness :
  fst (analyzeVehicleByVin (RT := LiteralRuntime) (lit "VF1")
         (constant_world (Some (lit "```json {} ```"))) []) = Throw SyntaxError.
Proof.
  refine (proj1 (reply_not_starting_as_json_throws (RT := LiteralRuntime)
                   (constant_world (Some (lit "```json {} ```"))) (lit "```json {} ```")
                   96 (lit "``json {} ```") []
                   (constant_world_has_key _) (constant_world_replies _) _ _) (lit "VF1"));
    vm_compute; reflexivity.
Defined.

(* ===================================================================== *)
(** ** The fields of the record, one by one *)
(* ===================================================================== *)

Lemma carte_grise_run :
  JSON.parse (RT := LiteralRuntime) (trim carte_grise_reply) = Return carte_grise_raw /\
  fst (analyzeVehicleCritical (RT := LiteralRuntime) [65] None
         (constant_world (Some carte_grise_reply)) []) = Return carte_grise_record.
Proof. split; vm_compute; reflexivity. Defined.

Section Fields.
Context {RT : Runtime}.

Lemma toUpperCase_ANALYSE :
  toUpperCase unicode_upper (lit "ANALYSE...") = lit "ANALYSE...".
Proof.
  rewrite toUpperCase_ascii; [vm_compute; reflexivity|].
  vm_compute. repeat constructor.
Qed.

Lemma stripped_empty :
  toUpperCase unicode_upper (replace_not_AZ09_gi unicode_upper (lit "")) = [].
Proof. apply (stripped_vin_fixed unicode_upper []). constructor. Qed.

(** The string [String(rawData.k || fallback)] is, knowing the value of
    [rawData.k]. *)
Lemma String_of_property_value raw k d v x :
  Get raw (lit k) = Return v -> String_of_property raw k d = Return x ->
  ToString (or_else v (JStr (lit d))) = Return x.
Proof.
  intros Hv Hx. apply String_of_property_inv in Hx.
  destruct Hx as (v' & Hv' & Hx). rewrite Hv in Hv'. injection Hv' as <-. exact Hx.
Qed.

Lemma String_of_property_falsy raw k d v x :
  Get raw (lit k) = Return v -> ToBoolean v = false ->
  String_of_property raw k d = Return x -> x = lit d.
Proof.
  intros Hv Hf Hx. pose proof (String_of_property_value raw k d v x Hv Hx) as H.
  unfold or_else in H. rewrite Hf in H. cbn [ToString] in H. congruence.
Qed.

Lemma String_of_property_text raw k d c s x :
  Get raw (lit k) = Return (JStr (c :: s)) ->
  String_of_property raw k d = Return x -> x = c :: s.
Proof.
  intros Hv Hx. pose proof (String_of_property_value raw k d _ x Hv Hx) as H.
  cbn in H. congruence.
Qed.

(** The fields of a returned record, from the strings they are made of. *)
Lemma returned_record w t raw r img mode log :
  has_key w -> replies w (Some t) -> JSON.parse (trim t) = Return raw ->
  fst (analyzeVehicleCritical img mode w log) = Return r ->
  exists vin brand model dr year plate reg,
    (String_of_property raw "vin" "" = Return vin /\
     String_of_property raw "brand" "Inconnu" = Return brand /\
     String_of_property raw "model" "ANALYSE..." = Return model /\
     Get raw (lit "deductionReasoning") = Return dr /\
     String_of_property raw "yearOfManufacture" "N/A" = Return year /\
     String_of_property raw "licensePlate" "" = Return plate /\
     String_of_property raw "registrationYear" "" = Return reg) /\
    (field "vin" r =
       Some (JStr (toUpperCase unicode_upper (replace_not_AZ09_gi unicode_upper vin))) /\
     field "brand" r = Some (JStr (toUpperCase unicode_upper brand)) /\
     field "model" r = Some (JStr (toUpperCase unicode_upper model)) /\
     field "deductionReasoning" r = Some (or_else dr (JStr [])) /\
     field "yearOfManufacture" r = Some (JStr year) /\
     field "licensePlate" r = Some (JStr plate) /\
     field "registrationYear" r = Some (JStr reg)).
Proof.
  intros Hkey Hrep Hparse Hr.
  rewrite (analyzeVehicleCritical_parsed w t raw) in Hr by assumption.
  apply normalize_inv in Hr.
  destruct Hr as (vin & brand & model & dr & year & plate & reg & Hr).
  destruct Hr as (H1 & H2 & H3 & H4 & H5 & H6 & H7 & ->).
  exists vin, brand, model, dr, year, plate, reg.
  split; [repeat split; assumption|]. apply vehicle_record_fields.
Qed.

(** X4. When the [vin] of the parsed reply is a string, the [vin] of the
    record is that string without the characters that are not ASCII letters
    or digits, the others in their order with the lowercase letters in
    uppercase: nothing is added, reordered or corrected. *)
Theorem vin_filtered_uppercased (w : world) (t : jsstring) (raw r : jsval) (s : jsstring)
    (img : jsstring) (mode : option ScanType) (log : list request) :
  has_key w -> replies w (Some t) -> JSON.parse (trim t) = Return raw ->
  Get raw (lit "vin") = Return (JStr s) ->
  fst (analyzeVehicleCritical img mode w log) = Return r ->
  field "vin" r = Some (JStr (map ascii_upper (filter is_ascii_alnum s))).
Proof.
  intros Hkey Hrep Hparse Hvin Hr.
  destruct (returned_record w t raw r img mode log Hkey Hrep Hparse Hr)
    as (vin & brand & model & dr & year & plate & reg & (H1 & _) & (F1 & _)).
  rewrite F1. do 2 f_equal.
  assert (vin = s) as ->.
  { destruct s as [|c s].
    - exact (String_of_property_falsy raw _ _ _ vin Hvin eq_refl H1).
    - exact (String_of_property_text raw _ _ c s vin Hvin H1). }
  rewrite replace_not_AZ09_gi_filter. apply toUpperCase_ascii.
  apply Forall_forall. intros c Hc. apply filter_In in Hc.
  apply ascii_alnum_below_128. apply Hc.
Qed.

(** X5. A field of the parsed reply that is missing or holds [null],
    [false], a zero or NaN number or the empty string counts as absent: the
    record holds the placeholder of the field, the empty string for [vin],
    [deductionReasoning], [licensePlate] and [registrationYear], INCONNU for
    [brand], ANALYSE... for [model] and N/A for [yearOfManufacture]. *)
Theorem falsy_fields_take_placeholders (w : world) (t : jsstring) (raw r : jsval)
    (img : jsstring) (mode : option ScanType) (log : list request) :
  has_key w -> replies w (Some t) -> JSON.parse (trim t) = Return raw ->
  fst (analyzeVehicleCritical img mode w log) = Return r ->
  forall (k : string) (v : jsval),
    Get raw (lit k) = Return v -> ToBoolean v = false ->
    (k = "vin"%string -> field k r = Some (JStr [])) /\
    (k = "brand"%string -> field k r = Some (JStr (lit "INCONNU"))) /\
    (k = "model"%string -> field k r = Some (JStr (lit "ANALYSE..."))) /\
    (k = "deductionReasoning"%string -> field k r = Some (JStr [])) /\
    (k = "yearOfManufacture"%string -> field k r = Some (JStr (lit "N/A"))) /\
    (k = "licensePlate"%string -> field k r = Some (JStr [])) /\
    (k = "registrationYear"%string -> field k r = Some (JStr [])).
Proof.
  intros Hkey Hrep Hparse Hr k v Hv Hf.
  destruct (returned_record w t raw r img mode log Hkey Hrep Hparse Hr)
    as (vin & brand & model & dr & year & plate & reg & Hs & Fs).
  destruct Hs as (H1 & H2 & H3 & H4 & H5 & H6 & H7).
  destruct Fs as (F1 & F2 & F3 & F4 & F5 & F6 & F7).
  repeat split; intros ->.
  - rewrite F1, (String_of_property_falsy raw _ _ v vin Hv Hf H1), stripped_empty.
    reflexivity.
  - rewrite F2, (String_of_property_falsy raw _ _ v brand Hv Hf H2), toUpperCase_Inconnu.
    reflexivity.
  - rewrite F3, (String_of_property_falsy raw _ _ v model Hv Hf H3), toUpperCase_ANALYSE.
    reflexivity.
  - rewrite F4. rewrite Hv in H4. injection H4 as <-.
    unfold or_else. rewrite Hf. reflexivity.
  - rewrite F5, (String_of_property_falsy raw _ _ v year Hv Hf H5). reflexivity.
  - rewrite F6, (String_of_property_falsy raw _ _ v plate Hv Hf H6). reflexivity.
  - rewrite F7, (String_of_property_falsy raw _ _ v reg Hv Hf H7). reflexivity.
Qed.

(** X6. [deductionReasoning] is the one field that is not passed to
    [String]: a value of the parsed reply that is not falsy is in the record
    as it is, whatever its type. *)
Theorem deduction_reasoning_kept (w : world) (t : jsstring) (raw r v : jsval)
    (img : jsstring) (mode : option ScanType) (log : list request) :
  has_key w -> replies w (Some t) -> JSON.parse (trim t) = Return raw ->
  Get raw (lit "deductionReasoning") = Return v -> ToBoolean v = true ->
  fst (analyzeVehicleCritical img mode w log) = Return r ->
  field "deductionReasoning" r = Some v.
Proof.
  intros Hkey Hrep Hparse Hv Ht Hr.
  destruct (returned_record w t raw r img mode log Hkey Hrep Hparse Hr)
    as (vin & brand & model & dr & year & plate & reg & Hs & Fs).
  destruct Hs as (_ & _ & _ & H4 & _). destruct Fs as (_ & _ & _ & F4 & _).
  rewrite F4. rewrite Hv in H4. injection H4 as <-.
  unfold or_else. rewrite Ht. reflexivity.
Qed.

(** X7. A [brand] or a [model] of the parsed reply that is a string of
    ASCII characters is in the record with its lowercase letters in
    uppercase and every other character as it is, none removed. *)
Theorem brand_model_ascii_uppercased (w : world) (t : jsstring) (raw r : jsval)
    (img : jsstring) (mode : option ScanType) (log : list request) :
  has_key w -> replies w (Some t) -> JSON.parse (trim t) = Return raw ->
  fst (analyzeVehicleCritical img mode w log) = Return r ->
  forall (c : code_unit) (s : jsstring),
    Forall (fun x => x < 128) (c :: s) ->
    (Get raw (lit "brand") = Return (JStr (c :: s)) ->
     field "brand" r = Some (JStr (map ascii_upper (c :: s)))) /\
    (Get raw (lit "model") = Return (JStr (c :: s)) ->
     field "model" r = Some (JStr (map ascii_upper (c :: s)))).
Proof.
  intros Hkey Hrep Hparse Hr c s Hascii.
  destruct (returned_record w t raw r img mode log Hkey Hrep Hparse Hr)
    as (vin & brand & model & dr & year & plate & reg & Hs & Fs).
  destruct Hs as (_ & H2 & H3 & _). destruct Fs as (_ & F2 & F3 & _).
  split; intros Hv.
  - rewrite F2, (String_of_property_text raw _ _ c s brand Hv H2).
    rewrite toUpperCase_ascii by exact Hascii. reflexivity.
  - rewrite F3, (String_of_property_text raw _ _ c s model Hv H3).
    rewrite toUpperCase_ascii by exact Hascii. reflexivity.
Qed.

(** X8. A [yearOfManufacture], [licensePlate] or [registrationYear] of
    the parsed reply that is a string that is not empty is in the record
    character for character: no case mapping, no filter, no trimming. *)
Theorem year_and_plate_verbatim (w : world) (t : jsstring) (raw r : jsval)
    (img : jsstring) (mode : option ScanType) (log : list request) :
  has_key w -> replies w (Some t) -> JSON.parse (trim t) = Return raw ->
  fst (analyzeVehicleCritical img mode w log) = Return r ->
  forall (k : string) (c : code_unit) (s : jsstring),
    In k ["yearOfManufacture"; "licensePlate"; "registrationYear"]%string ->
    Get raw (lit k) = Return (JStr (c :: s)) ->
    field k r = Some (JStr (c :: s)).
Proof.
  intros Hkey Hrep Hparse Hr k c s Hk Hv.
  destruct (returned_record w t raw r img mode log Hkey Hrep Hparse Hr)
    as (vin & brand & model & dr & year & plate & reg & Hs & Fs).
  destruct Hs as (_ & _ & _ & _ & H5 & H6 & H7).
  destruct Fs as (_ & _ & _ & _ & F5 & F6 & F7).
  cbn [In] in Hk. destruct Hk as [<- | [<- | [<- | []]]].
  - rewrite F5, (String_of_property_text raw _ _ c s year Hv H5). reflexivity.
  - rewrite F6, (String_of_property_text raw _ _ c s plate Hv H6). reflexivity.
  - rewrite F7, (String_of_property_text raw _ _ c s reg Hv H7). reflexivity.
Qed.

(** X9. A reply that parses as a JSON boolean, number, string or array is
    not refused: none of the seven fields can be read from it, and
    [analyzeVehicleCritical] returns the record of the seven placeholders. *)
Theorem non_object_reply_gives_placeholders (w : world) (t : jsstring) (raw : jsval)
    (img : jsstring) (mode : option ScanType) (log : list request) :
  has_key w -> replies w (Some t) -> JSON.parse (trim t) = Return raw ->
  is_scalar_or_array raw = true ->
  fst (analyzeVehicleCritical img mode w log) = Return placeholder_record.
Proof.
  intros Hkey Hrep Hparse Hraw.
  rewrite (analyzeVehicleCritical_parsed w t raw) by assumption.
  assert (Hget : forall k, Get raw k = Return JUndefined).
  { intros k. destruct raw; try discriminate Hraw; reflexivity. }
  assert (Hs : forall k d, String_of_property raw k d = Return (lit d)).
  { intros k d. unfold String_of_property. rewrite Hget. reflexivity. }
  rewrite (normalize_returns raw (lit "") (lit "Inconnu") (lit "ANALYSE...") JUndefined
             (lit "N/A") (lit "") (lit "")) by (apply Hs || apply Hget).
  rewrite stripped_empty, toUpperCase_Inconnu, toUpperCase_ANALYSE. reflexivity.
Qed.

End Fields.

Lemma vin_filtered_uppercased_witness :
  field "vin" carte_grise_record =
  Some (JStr (map ascii_upper (filter is_ascii_alnum (lit "vf1-rfb 00é_7")))).
Proof.
  refine (vin_filtered_uppercased (RT := LiteralRuntime)
            (constant_world (Some carte_grise_reply)) carte_grise_reply carte_grise_raw
            carte_grise_record (lit "vf1-rfb 00é_7") [65] None []
            (constant_world_has_key _) (constant_world_replies _)
            (proj1 carte_grise_run) _ (proj2 carte_grise_run)).
  vm_compute. reflexivity.
Defined.

Lemma falsy_fields_witness :
  field "registrationYear" carte_grise_record = Some (JStr []).
Proof.
  refine (proj2 (proj2 (proj2 (proj2 (proj2 (proj2
    (falsy_fields_take_placeholders (RT := LiteralRuntime)
       (constant_world (Some carte_grise_reply)) carte_grise_reply carte_grise_raw
       carte_grise_record [65] None []
       (constant_world_has_key _) (constant_world_replies _)
       (proj1 carte_grise_run) (proj2 carte_grise_run)
       "registrationYear"%string JNull _ eq_refl)))))) eq_refl).
  vm_compute. reflexivity.
Defined.

Lemma deduction_reasoning_kept_witness :
  field "deductionReasoning" carte_grise_record =
  Some (JNum (RT := LiteralRuntime) (lit "5")).
Proof.
  refine (deduction_reasoning_kept (RT := LiteralRuntime)
            (constant_world (Some carte_grise_reply)) carte_grise_reply carte_grise_raw
            carte_grise_record (JNum (RT := LiteralRuntime) (lit "5")) [65] None []
            (constant_world_has_key _) (constant_world_replies _)
            (proj1 carte_grise_run) _ _ (proj2 carte_grise_run));
    vm_compute; reflexivity.
Defined.

Lemma brand_model_ascii_uppercased_witness :
  field "model" carte_grise_record = Some (JStr (map ascii_upper (lit "clio 5"))).
Proof.
  refine (proj2 (brand_model_ascii_uppercased (RT := LiteralRuntime)
            (constant_world (Some carte_grise_reply)) carte_grise_reply carte_grise_raw
            carte_grise_record [65] None []
            (constant_world_has_key _) (constant_world_replies _)
            (proj1 carte_grise_run) (proj2 carte_grise_run)
            99 (lit "lio 5") _) _).
  - vm_compute. repeat constructor.
  - vm_compute. reflexivity.
Defined.

Lemma year_and_plate_verbatim_witness :
  field "licensePlate" carte_grise_record = Some (JStr (49 :: lit "2345-a-6")).
Proof.
  refine (year_and_plate_verbatim (RT := LiteralRuntime)
            (constant_world (Some carte_grise_reply)) carte_grise_reply carte_grise_raw
            carte_grise_record [65] None []
            (constant_world_has_key _) (constant_world_replies _)
            (proj1 carte_grise_run) (proj2 carte_grise_run)
            "licensePlate"%string 49 (lit "2345-a-6") _ _).
  - right. left. reflexivity.
  - vm_compute. reflexivity.
Defined.

Lemma non_object_reply_witness :
  fst (analyzeVehicleCritical (RT := LiteralRuntime) [65] None
         (constant_world (Some (lit "[1, 2]"))) []) = Return placeholder_record.
Proof.
  refine (non_object_reply_gives_placeholders (RT := LiteralRuntime)
            (constant_world (Some (lit "[1, 2]"))) (lit "[1, 2]")
            (JArr [JNum (RT := LiteralRuntime) (lit "1"); JNum (RT := LiteralRuntime) (lit "2")])
            [65] None []
            (constant_world_has_key _) (constant_world_replies _) _ eq_refl).
  vm_compute. reflexivity.
Defined.

(* ===================================================================== *)
(** ** The two text operations *)
(* ===================================================================== *)

Lemma trimEnd_idempotent (s : jsstring) : trimEnd (trimEnd s) = trimEnd s.
Proof.
  induction s as [|c s IH]; [reflexivity|].
  cbn [trimEnd]. destruct (trimEnd s) as [|x r] eqn:E.
  - destruct (is_white_space c) eqn:Hc; [reflexivity|].
    cbn [trimEnd]. rewrite Hc. reflexivity.
  - change (trimEnd (c :: x :: r)) with
      (match trimEnd (x :: r) with
       | [] => if is_white_space c then [] else [c]
       | r' => c :: r'
       end).
    rewrite IH. reflexivity.
Qed.

Lemma trimStart_fixed (c : code_unit) (r : jsstring) :
  is_white_space c = false -> trimStart (c :: r) = c :: r.
Proof. intros H. cbn [trimStart]. rewrite H. reflexivity. Qed.

Lemma trim_idempotent (t : jsstring) : trim (trim t) = trim t.
Proof.
  destruct (trim t) as [|c r] eqn:E; [reflexivity|].
  pose proof (trim_head t c r E) as Hc.
  unfold trim. rewrite (trimStart_fixed c r Hc).
  rewrite <- E. unfold trim. apply trimEnd_idempotent.
Qed.

Lemma string_or_trimmed (t : option jsstring) (fallback : jsstring) :
  fallback <> [] -> trim fallback = fallback ->
  string_or (option_map trim t) fallback <> [] /\
  trim (string_or (option_map trim t) fallback) = string_or (option_map trim t) fallback /\
  (forall c r, option_map trim t = Some (c :: r) ->
               string_or (option_map trim t) fallback = c :: r).
Proof.
  intros Hne Hfix. destruct t as [t|]; cbn [option_map string_or].
  - destruct (trim t) as [|c r] eqn:E.
    + repeat split; [exact Hne | exact Hfix | discriminate].
    + repeat split; [discriminate | rewrite <- E; apply trim_idempotent|].
      intros c' r' H. injection H as <- <-. reflexivity.
  - repeat split; [exact Hne | exact Hfix | discriminate].
Qed.

Lemma fallbacks_trimmed :
  report_fallback <> [] /\ trim report_fallback = report_fallback /\
  chat_fallback <> [] /\ trim chat_fallback = chat_fallback.
Proof.
  repeat split; try (vm_compute; reflexivity); vm_compute; discriminate.
Qed.

Section TextOperations.
Context {RT : Runtime}.

(** X10. With a key and an oracle that replies, [getVinAnalysisReport]
    and [chatWithExpert] never throw and never return an empty or padded
    string: the answer is the text of the reply without the white space
    around it when something is left of it, and the fixed fallback of the
    operation otherwise. *)
Theorem text_operations_always_answer (w : world) (t : option jsstring)
    (log : list request) :
  has_key w -> replies w t ->
  (forall vin, exists s,
      fst (getVinAnalysisReport vin w log) = Return s /\ s <> [] /\ trim s = s /\
      (forall c r, option_map trim t = Some (c :: r) -> s = c :: r) /\
      (option_map trim t = None \/ option_map trim t = Some [] -> s = report_fallback)) /\
  (forall history question, exists s,
      fst (chatWithExpert history question w log) = Return s /\ s <> [] /\ trim s = s /\
      (forall c r, option_map trim t = Some (c :: r) -> s = c :: r) /\
      (option_map trim t = None \/ option_map trim t = Some [] -> s = chat_fallback)).
Proof.
  intros Hkey Hrep.
  destruct fallbacks_trimmed as (R1 & R2 & C1 & C2).
  split; intros.
  - rewrite (getVinAnalysisReport_run w t) by assumption.
    destruct (string_or_trimmed t report_fallback R1 R2) as (H1 & H2 & H3).
    eexists. split; [reflexivity|]. repeat split; try assumption.
    intros [E | E]; rewrite E; reflexivity.
  - rewrite (chatWithExpert_run w t) by assumption.
    destruct (string_or_trimmed t chat_fallback C1 C2) as (H1 & H2 & H3).
    eexists. split; [reflexivity|]. repeat split; try assumption.
    intros [E | E]; rewrite E; reflexivity.
Qed.

End TextOperations.

Lemma text_operations_witness :
  exists s,
    fst (chatWithExpert [] (lit "Bonjour") (constant_world (Some (lit "  Salam  "))) []) =
    Return s /\ s <> [] /\ trim s = s /\
    (forall c r, option_map trim (Some (lit "  Salam  ")) = Some (c :: r) -> s = c :: r) /\
    (option_map trim (Some (lit "  Salam  ")) = None \/
     option_map trim (Some (lit "  Salam  ")) = Some [] -> s = chat_fallback).
Proof.
  exact (proj2 (text_operations_always_answer
                  (constant_world (Some (lit "  Salam  "))) (Some (lit "  Salam  ")) []
                  (constant_world_has_key _) (constant_world_replies _))
           [] (lit "Bonjour")).
Defined.

(* ===================================================================== *)
(** ** White space around a reply *)
(* ===================================================================== *)

Lemma trimStart_app_white_space (ws x : jsstring) :
  Forall (fun c => is_white_space c = true) ws -> trimStart (ws ++ x) = trimStart x.
Proof.
  induction 1 as [|c ws Hc _ IH]; [reflexivity|].
  cbn [app trimStart]. rewrite Hc. exact IH.
Qed.

Lemma trimStart_app (x y : jsstring) :
  trimStart x <> [] -> trimStart (x ++ y) = trimStart x ++ y.
Proof.
  induction x as [|c x IH]; cbn [app trimStart]; [congruence|].
  destruct (is_white_space c); [exact IH | reflexivity].
Qed.

Lemma trimEnd_white_space (ws : jsstring) :
  Forall (fun c => is_white_space c = true) ws -> trimEnd ws = [].
Proof.
  induction 1 as [|c ws Hc _ IH]; [reflexivity|].
  cbn [trimEnd]. rewrite IH, Hc. reflexivity.
Qed.

Lemma trimEnd_app_white_space (x ws : jsstring) :
  Forall (fun c => is_white_space c = true) ws -> trimEnd (x ++ ws) = trimEnd x.
Proof.
  intros Hws. induction x as [|c x IH]; cbn [app].
  - rewrite (trimEnd_white_space ws Hws). reflexivity.
  - cbn [trimEnd]. rewrite IH. reflexivity.
Qed.

Lemma trim_padded (ws1 core ws2 : jsstring) :
  Forall (fun c => is_white_space c = true) ws1 ->
  Forall (fun c => is_white_space c = true) ws2 ->
  trim core <> [] ->
  trim (ws1 ++ core ++ ws2) = trim core.
Proof.
  intros H1 H2 Hne. unfold trim in *.
  rewrite (trimStart_app_white_space ws1 _ H1).
  rewrite trimStart_app by (intros E; rewrite E in Hne; apply Hne; reflexivity).
  apply trimEnd_app_white_space. exact H2.
Qed.

Section PaddedReplies.
Context {RT : Runtime}.

(** X11. White space of any kind around the JSON text of a reply, also
    the kinds [JSON.parse] alone refuses (a byte order mark, a no-break
    space), does no harm: when the text between parses to [v],
    [analyzeVehicleByVin], [analyzeVehicleDetails] and [estimateMarketValue]
    return [v] as it is. *)
Theorem padded_reply_returned_unchanged (w : world) (ws1 core ws2 : jsstring) (v : jsval)
    (log : list request) :
  has_key w -> replies w (Some (ws1 ++ core ++ ws2)) ->
  Forall (fun c => is_white_space c = true) ws1 ->
  Forall (fun c => is_white_space c = true) ws2 ->
  JSON.parse core = Return v ->
  (forall vin, fst (analyzeVehicleByVin vin w log) = Return v) /\
  (forall img brand, fst (analyzeVehicleDetails img brand w log) = Return v) /\
  (forall vehicle, fst (estimateMarketValue vehicle w log) = Return v).
Proof.
  intros Hkey Hrep H1 H2 Hparse.
  pose proof (TrimFacts.parse_trim core v Hparse) as Hcore.
  assert (Hne : trim core <> []).
  { intros E. rewrite E in Hcore. discriminate Hcore. }
  assert (Htrim : JSON.parse (trim (ws1 ++ core ++ ws2)) = Return v).
  { rewrite (trim_padded ws1 core ws2 H1 H2 Hne). exact Hcore. }
  destruct (ws1 ++ core ++ ws2) as [|c t] eqn:E.
  { discriminate Htrim. }
  repeat split; intros.
  - rewrite (analyzeVehicleByVin_run w (Some (c :: t))) by assumption. exact Htrim.
  - rewrite (analyzeVehicleDetails_run w (Some (c :: t))) by assumption. exact Htrim.
  - rewrite (estimateMarketValue_run w (Some (c :: t))) by assumption. exact Htrim.
Qed.

End PaddedReplies.

Lemma padded_reply_witness :
  fst (estimateMarketValue (RT := LiteralRuntime)
         {| va_brand := None; va_model := None; va_yearOfManufacture := None;
            va_registrationYear := None; va_motorization := None; va_fuelType := None;
            va_inventoryNotes := None |}
         (constant_world (Some ([0xFEFF; 10] ++ lit "[120000, 135000]" ++ [0xA0]))) []) =
  Return (JArr [JNum (RT := LiteralRuntime) (lit "120000");
                JNum (RT := LiteralRuntime) (lit "135000")]).
Proof.
  refine (proj2 (proj2
    (padded_reply_returned_unchanged (RT := LiteralRuntime)
       (constant_world (Some ([0xFEFF; 10] ++ lit "[120000, 135000]" ++ [0xA0])))
       [0xFEFF; 10] (lit "[120000, 135000]") [0xA0] _ []
       (constant_world_has_key _) (constant_world_replies _) _ _ _)) _).
  - repeat constructor.
  - repeat constructor.
  - vm_compute. reflexivity.
Defined.

(* ===================================================================== *)
(** ** A payload that is stripped already *)
(* ===================================================================== *)

Lemma after_before_sep (sep : code_unit) (s : jsstring) :
  after_sep sep (before_sep sep s) = None.
Proof.
  induction s as [|c s IH]; cbn [before_sep]; [reflexivity|].
  destruct (c =? sep) eqn:E; [reflexivity|].
  cbn [after_sep]. rewrite E. exact IH.
Qed.

Lemma between_commas_no_comma (img : jsstring) :
  after_sep 44 img = None -> between_commas_or_all img = img.
Proof. intros H. unfold between_commas_or_all. rewrite H. reflexivity. Qed.

Lemma between_commas_cases (img : jsstring) :
  between_commas_or_all img = img \/ after_sep 44 (between_commas_or_all img) = None.
Proof.
  unfold between_commas_or_all. destruct (after_sep 44 img) as [r|]; [|left; reflexivity].
  cbn [option_map string_or]. destruct (before_sep 44 r) as [|c p] eqn:E.
  - left. reflexivity.
  - right. rewrite <- E. apply after_before_sep.
Qed.

(** X12. A payload without a comma, raw base64 for one, is forwarded as
    it is, and what [image_data] yields holds no comma unless it is the whole
    input: stripping what was stripped already changes nothing. *)
Theorem image_data_idempotent (img : jsstring) :
  (after_sep 44 img = None -> image_data img = img) /\
  (image_data img = img \/ after_sep 44 (image_data img) = None) /\
  image_data (image_data img) = image_data img.
Proof.
  rewrite !image_data_between_commas.
  split; [apply between_commas_no_comma|].
  split; [apply between_commas_cases|].
  destruct (between_commas_cases img) as [E | E].
  - rewrite E. exact E.
  - apply between_commas_no_comma. exact E.
Qed.

(* ===================================================================== *)
(** ** The instruction of the estimate *)
(* ===================================================================== *)







Section EstimateInstruction.
Context {RT : Runtime}.



End EstimateInstruction.


(* ===================================================================== *)
(** ** Repeated keys in a reply *)
(* ===================================================================== *)

Lemma jsstring_eqb_true (a b : jsstring) : jsstring_eqb a b = true -> a = b.
Proof. unfold jsstring_eqb. destruct (list_eq_dec N.eq_dec a b); congruence. Qed.


Section DistinctKeys.
Context {RT : Runtime}.
Import JSON.






(** On a repeated key the last value is the one that stays. *)
Lemma own_property_set_property k v props :
  own_property k (set_property k v props) = Some v.
Proof.
  induction props as [|[k' v'] props IH]; cbn [set_property own_property].
  - assert (E : jsstring_eqb k k = true).
    { unfold jsstring_eqb. destruct (list_eq_dec N.eq_dec k k); congruence. }
    rewrite E. reflexivity.
  - destruct (jsstring_eqb k k') eqn:E; cbn [own_property]; rewrite E; [reflexivity | exact IH].
Qed.











End DistinctKeys.


(* ===================================================================== *)
(** ** The three codes of the report, together *)
(* ===================================================================== *)

Lemma firstn_plus (a b : nat) (s : jsstring) :
  firstn (a + b) s = firstn a s ++ firstn b (skipn a s).
Proof.
  revert s. induction a as [|a IH]; intros s; [reflexivity|].
  destruct s as [|c s]; cbn [Nat.add firstn skipn app].
  - rewrite firstn_nil. reflexivity.
  - rewrite IH. reflexivity.
Qed.

Lemma substring_firstn_skipn (s : jsstring) (a b : nat) :
  (a <= b)%nat -> substring s a b = firstn (b - a) (skipn a s).
Proof.
  intros Hab. rewrite (substring_chars_between s a b Hab).
  rewrite <- chars_between_skipn. f_equal. lia.
Qed.

Lemma vin_codes_partition (vin : jsstring) :
  substring vin 0 3 ++ substring vin 3 9 ++ substring vin 9 17 = firstn 17 vin.
Proof.
  rewrite !substring_firstn_skipn by lia.
  change (3 - 0)%nat with 3%nat. change (9 - 3)%nat with 6%nat.
  change (17 - 9)%nat with 8%nat. change (skipn 0 vin) with vin.
  change 17%nat with (3 + (6 + 8))%nat.
  rewrite (firstn_plus 3 (6 + 8) vin), (firstn_plus 6 8 (skipn 3 vin)).
  rewrite skipn_skipn. reflexivity.
Qed.

Lemma substring_length (s : jsstring) (a b : nat) :
  (a <= b)%nat ->
  (List.length (substring s a b) <= b - a)%nat /\
  ((b <= List.length s)%nat -> List.length (substring s a b) = (b - a)%nat).
Proof.
  intros Hab. rewrite (substring_firstn_skipn s a b Hab).
  rewrite length_firstn, length_skipn. split; lia.
Qed.

(** X15. The three codes of the table of the report are consecutive
    pieces of the VIN: put end to end they are its first 17 characters, none
    lost, repeated or moved; they hold at most 3, 6 and 8 characters, and
    exactly that many when the VIN has 17 characters or more. *)
Theorem report_codes_partition (w : world) (vin : jsstring) (log : list request) :
  has_key w ->
  exists model contents config wmi vds vis,
    snd (getVinAnalysisReport vin w log) =
      log ++ [generateContent_request model contents config] /\
    has_lines (systemInstruction config) (decomposition_table wmi vds vis) /\
    wmi ++ vds ++ vis = firstn 17 vin /\
    (List.length wmi <= 3 /\ List.length vds <= 6 /\ List.length vis <= 8)%nat /\
    ((17 <= List.length vin)%nat ->
     List.length wmi = 3%nat /\ List.length vds = 6%nat /\ List.length vis = 8%nat).
Proof.
  intros Hkey.
  eexists _, _, _, (substring vin 0 3), (substring vin 3 9), (substring vin 9 17).
  split; [apply getVinAnalysisReport_log; exact Hkey|].
  cbn [systemInstruction].
  split; [apply systemPrompt_table|].
  split; [apply vin_codes_partition|].
  destruct (substring_length vin 0 3) as [A1 A2]; [lia|].
  destruct (substring_length vin 3 9) as [B1 B2]; [lia|].
  destruct (substring_length vin 9 17) as [C1 C2]; [lia|].
  split; [lia|]. intros Hlen.
  rewrite A2, B2, C2 by lia. repeat split; reflexivity.
Qed.

Lemma report_codes_partition_witness :
  exists model contents config wmi vds vis,
    snd (getVinAnalysisReport (lit "VF1RFB00") (constant_world None) []) =
      [] ++ [generateContent_request model contents config] /\
    has_lines (systemInstruction config) (decomposition_table wmi vds vis) /\
    wmi ++ vds ++ vis = firstn 17 (lit "VF1RFB00") /\
    (List.length wmi <= 3 /\ List.length vds <= 6 /\ List.length vis <= 8)%nat /\
    ((17 <= List.length (lit "VF1RFB00"))%nat ->
     List.length wmi = 3%nat /\ List.length vds = 6%nat /\ List.length vis = 8%nat).
Proof.
  exact (report_codes_partition (constant_world None) (lit "VF1RFB00") []
           (constant_world_has_key _)).
Defined.

(* ===================================================================== *)
(** ** The errors an operation can throw *)
(* ===================================================================== *)

Section Errors.
Context {RT : Runtime}.








End Errors.

